(** * LobSec SDK: unit conversion, quoting and transaction sequencing

    A shallow embedding of [lobsec/insurance.py], [lobsec/registry.py] and
    [lobsec/agent.py].

    - Python [float] is IEEE binary64, taken from the standard library's
      [SpecFloat] with [prec = 53] and [emax = 1024].
    - [decimal.Decimal] is embedded under the default context of the
      [decimal] module (28 significant digits, ROUND_HALF_EVEN,
      Emax = 999999, traps on InvalidOperation, DivisionByZero, Overflow),
      following the reference implementation of [__mul__], [__truediv__],
      [_fix], [__int__] and [__float__].
    - The chain behind web3 is an environment of time-indexed answers; every
      RPC advances the clock and is recorded in a trace, and a Python
      exception aborts the rest of the method. *)

From Stdlib Require Import ZArith QArith Qreduction List String Bool Lia.
From Stdlib Require Import Floats.SpecFloat.
Import ListNotations.
Open Scope Z_scope.

(** ** Python exceptions and results *)

Inductive exn : Type :=
| ValueError (msg : string)
| OverflowError (msg : string)
| DecimalOverflow
| DecimalInvalidOperation
| DecimalDivisionByZero
| RpcError (code : Z).

Inductive result (A : Type) : Type :=
| Ok (a : A)
| Raise (e : exn).
Arguments Ok {A} a.
Arguments Raise {A} e.

Definition rbind {A B : Type} (r : result A) (k : A -> result B) : result B :=
  match r with
  | Ok a => k a
  | Raise e => Raise e
  end.

(** ** Python floats *)

Module PyFloat.

Definition prec : Z := 53.
Definition emax : Z := 1024.
Definition float : Type := spec_float.

Definition mul : float -> float -> float := SFmul prec emax.
Definition sub : float -> float -> float := SFsub prec emax.
Definition ltb : float -> float -> bool := SFltb.
Definition leb : float -> float -> bool := SFleb.
Definition eqb : float -> float -> bool := SFeqb.
Definition valid : float -> bool := valid_binary prec emax.

Definition is_finite (x : float) : bool :=
  match x with
  | S754_zero _ | S754_finite _ _ _ => true
  | _ => false
  end.

(** The binary64 value nearest to the fraction [n / d] (ties to even),
    with sign [s]. *)
Definition of_frac (s : bool) (n d : positive) : float :=
  SFdiv prec emax (S754_finite s n 0) (S754_finite false d 0).

(** Correct rounding of a rational given by its magnitude; the fraction is
    reduced first, so the result depends on the value only. *)
Definition round_Q (s : bool) (q : Q) : float :=
  match Qnum (Qred q) with
  | Zpos n => of_frac s n (Qden (Qred q))
  | _ => S754_zero s
  end.

(** [float(n)] for an integer. *)
Definition of_int (n : Z) : float :=
  binary_normalize prec emax n 0 false.

(** [a / b] on integers with [b > 0]: true division is correctly rounded
    and raises OverflowError when the quotient is out of range. *)
Definition int_true_div (a b : Z) : result float :=
  let q := round_Q (a <? 0) (Z.abs a # Z.to_pos b) in
  match q with
  | S754_infinity _ =>
      Raise (OverflowError "integer division result too large for a float")
  | _ => Ok q
  end.

(** The exact value of a finite float, as magnitude. *)
Definition magnitude (m : positive) (e : Z) : Q :=
  if 0 <=? e then inject_Z (Zpos m * 2 ^ e)
  else Zpos m # Z.to_pos (2 ^ (- e)).

(** Nearest integer to a non-negative rational, ties to even. *)
Definition Qround_half_even (q : Q) : Z :=
  let n := Qnum q in
  let d := Zpos (Qden q) in
  let k := n / d in
  let r := n mod d in
  match 2 * r ?= d with
  | Lt => k
  | Gt => k + 1
  | Eq => if Z.even k then k else k + 1
  end.

(** [round(x, 2)]: the exact binary value is rounded half-even to two
    decimals and the decimal result is read back as the nearest float;
    infinities, NaN and zeros round to themselves. *)
Definition round2 (x : float) : float :=
  match x with
  | S754_finite s m e =>
      round_Q s (Qround_half_even (magnitude m e * 100) # 100)
  | _ => x
  end.

(** *** [repr]: the shortest decimal that reads back as the same float *)

(** Decimal weights are kept as integers by scaling everything with
    [2^1074 * 10^350]: [weight k] stands for [10^(k - 350)]. *)
Definition scaled (m : positive) (e : Z) : Z :=
  Zpos m * 2 ^ (e + 1074) * 10 ^ 350.

Definition weight (k : Z) : Z := 2 ^ 1074 * 10 ^ k.

(** Largest [p] with [10^p <= v], by counting up; [w] is the weight of
    [10^(p+1)]. *)
Fixpoint ilog10_from (fuel : nat) (a : Z) (p : Z) (w : Z) : Z :=
  match fuel with
  | O => p
  | S fuel' => if w <=? a then ilog10_from fuel' a (p + 1) (w * 10) else p
  end.

Definition ilog10 (a : Z) : Z :=
  ilog10_from 634 a (-325) (weight 26).

(** The value of the decimal [c * 10^q]. *)
Definition decimal_value (c q : Z) : Q :=
  if 0 <=? q then inject_Z (c * 10 ^ q)
  else c # Z.to_pos (10 ^ (- q)).

Definition reads_back (x : float) (s : bool) (c q : Z) : bool :=
  match x, round_Q s (decimal_value c q) with
  | S754_finite s1 m1 e1, S754_finite s2 m2 e2 =>
      Bool.eqb s1 s2 && Pos.eqb m1 m2 && Z.eqb e1 e2
  | _, _ => false
  end.

(** The candidate with [nd] significant digits: the neighbour of the exact
    value that reads back as [x], the nearer one first. *)
Definition candidate (x : float) (s : bool) (a p : Z) (nd : Z)
  : option (Z * Z) :=
  let q := p - nd + 1 in
  let w := weight (q + 350) in
  let (lo, r) := Z.div_eucl a w in
  let hi := lo + 1 in
  let first_lo :=
    match 2 * r ?= w with
    | Lt => true
    | Gt => false
    | Eq => Z.even lo
    end in
  if r =? 0 then
    if reads_back x s lo q then Some (lo, q) else None
  else if first_lo then
    if reads_back x s lo q then Some (lo, q)
    else if reads_back x s hi q then Some (hi, q) else None
  else
    if reads_back x s hi q then Some (hi, q)
    else if reads_back x s lo q then Some (lo, q) else None.

Fixpoint shortest_from (fuel : nat) (x : float) (s : bool) (a p : Z) (nd : Z)
  : Z * Z :=
  match fuel with
  | O => (a / weight (p - 16 + 350), p - 16)
  | S fuel' =>
      match candidate x s a p nd with
      | Some cq => cq
      | None => shortest_from fuel' x s a p (nd + 1)
      end
  end.

(** Digits and decimal exponent of [repr] for a finite non-zero float:
    between 1 and 17 digits; should none read back, the 17-digit
    truncation stands in. A carry to [10^nd] is written with one digit. *)
Definition shortest (s : bool) (m : positive) (e : Z) : Z * Z :=
  let a := scaled m e in
  let p := ilog10 a in
  let '(c, q) := shortest_from 17 (S754_finite s m e) s a p 1 in
  if c =? 10 then (1, q + 1) else (c, q).

End PyFloat.

(** ** [decimal.Decimal] under the default context *)

Module PyDecimal.

Inductive Decimal : Type :=
| Finite (sign : bool) (coeff : Z) (exp : Z)
| Infinity (sign : bool)
| NaN.

Definition ctx_prec : Z := 28.
Definition Emax : Z := 999999.
Definition Emin : Z := -999999.
Definition Etiny : Z := Emin - ctx_prec + 1.
Definition Etop : Z := Emax - ctx_prec + 1.

(** [len(self._int)]: the number of decimal digits of the coefficient. *)
Fixpoint ndigits_aux (fuel : nat) (c : Z) : Z :=
  match fuel with
  | O => 1
  | S fuel' => if c <? 10 then 1 else 1 + ndigits_aux fuel' (c / 10)
  end.

Definition ndigits (c : Z) : Z := ndigits_aux (Z.to_nat (Z.log2 c)) c.

(** [Decimal(n)] for an integer: exact, whatever the context. *)
Definition of_int (n : Z) : Decimal := Finite (n <? 0) (Z.abs n) 0.

(** Drop the last [drop] digits of [c], rounding half to even; the flag
    tells whether the coefficient was rounded up. *)
Definition round_half_even (c drop : Z) : Z * bool :=
  let (k, r) := Z.div_eucl c (10 ^ drop) in
  match 2 * r ?= 10 ^ drop with
  | Lt => (k, false)
  | Gt => (k, true)
  | Eq => (k, negb (Z.even k))
  end.

(** [Decimal._fix]: round to the context precision and check the exponent
    range. Only Overflow is trapped; Inexact, Rounded, Subnormal, Underflow
    and Clamped merely set flags. *)
Definition fix_ (d : Decimal) : result Decimal :=
  match d with
  | Finite s c e =>
      if c =? 0 then Ok (Finite s 0 (Z.min (Z.max e Etiny) Emax))
      else
        let exp_min := ndigits c + e - ctx_prec in
        if Etop <? exp_min then Raise DecimalOverflow
        else
          let exp_min := Z.max exp_min Etiny in
          if e <? exp_min then
            let digits := ndigits c + e - exp_min in
            let '(c1, drop) :=
              if digits <? 0 then (1, 1) else (c, exp_min - e) in
            let (k, up) := round_half_even c1 drop in
            let '(coeff, exp_min) :=
              if up then
                if ctx_prec <? ndigits (k + 1)
                then ((k + 1) / 10, exp_min + 1)
                else (k + 1, exp_min)
              else (k, exp_min) in
            if Etop <? exp_min then Raise DecimalOverflow
            else Ok (Finite s coeff exp_min)
          else Ok d
  | _ => Ok d
  end.

(** [Decimal.__mul__] *)
Definition mul (a b : Decimal) : result Decimal :=
  match a, b with
  | NaN, _ | _, NaN => Ok NaN
  | Infinity s1, Infinity s2 => Ok (Infinity (xorb s1 s2))
  | Infinity s1, Finite s2 c2 _ =>
      if c2 =? 0 then Raise DecimalInvalidOperation
      else Ok (Infinity (xorb s1 s2))
  | Finite s1 c1 _, Infinity s2 =>
      if c1 =? 0 then Raise DecimalInvalidOperation
      else Ok (Infinity (xorb s1 s2))
  | Finite s1 c1 e1, Finite s2 c2 e2 =>
      fix_ (Finite (xorb s1 s2) (c1 * c2) (e1 + e2))
  end.

(** Trailing zeros of an exact quotient are removed while the exponent is
    below the ideal one. *)
Fixpoint strip_zeros (fuel : nat) (coeff exp ideal_exp : Z) : Z * Z :=
  match fuel with
  | O => (coeff, exp)
  | S fuel' =>
      if (exp <? ideal_exp) && (coeff mod 10 =? 0)
      then strip_zeros fuel' (coeff / 10) (exp + 1) ideal_exp
      else (coeff, exp)
  end.

(** [Decimal.__truediv__] *)
Definition div (a b : Decimal) : result Decimal :=
  match a, b with
  | NaN, _ | _, NaN => Ok NaN
  | Infinity _, Infinity _ => Raise DecimalInvalidOperation
  | Infinity s1, Finite s2 _ _ => Ok (Infinity (xorb s1 s2))
  | Finite s1 _ _, Infinity s2 => Ok (Finite (xorb s1 s2) 0 Etiny)
  | Finite s1 c1 e1, Finite s2 c2 e2 =>
      let sign := xorb s1 s2 in
      if c2 =? 0 then
        if c1 =? 0 then Raise DecimalInvalidOperation
        else Raise DecimalDivisionByZero
      else if c1 =? 0 then fix_ (Finite sign 0 (e1 - e2))
      else
        let shift := ndigits c2 - ndigits c1 + ctx_prec + 1 in
        let exp := e1 - e2 - shift in
        let (coeff, remainder) :=
          if 0 <=? shift then Z.div_eucl (c1 * 10 ^ shift) c2
          else Z.div_eucl c1 (c2 * 10 ^ (- shift)) in
        if remainder =? 0 then
          let (coeff, exp) :=
            strip_zeros (Z.to_nat (ndigits coeff)) coeff exp (e1 - e2) in
          fix_ (Finite sign coeff exp)
        else
          fix_ (Finite sign (if coeff mod 5 =? 0 then coeff + 1 else coeff) exp)
  end.

(** [Decimal.__int__]: truncation towards zero. *)
Definition to_int (d : Decimal) : result Z :=
  match d with
  | NaN => Raise (ValueError "cannot convert NaN to integer")
  | Infinity _ => Raise (OverflowError "cannot convert Infinity to integer")
  | Finite s c e =>
      let n := if 0 <=? e then c * 10 ^ e else c / 10 ^ (- e) in
      Ok (if s then - n else n)
  end.

(** [Decimal.__float__]: the decimal string is read by [float], which
    rounds correctly and overflows to an infinity. *)
Definition to_float (d : Decimal) : PyFloat.float :=
  match d with
  | NaN => S754_nan
  | Infinity s => S754_infinity s
  | Finite s c e => PyFloat.round_Q s (PyFloat.decimal_value c e)
  end.

(** [Decimal(str(x))] for a float [x]: [repr] writes the shortest digits
    in positional notation when the decimal point falls within
    [-4 < decpt <= 16] (padding integers with zeros and a final [.0]) and in
    exponent notation otherwise. *)
Definition of_float_str (x : PyFloat.float) : Decimal :=
  match x with
  | S754_nan => NaN
  | S754_infinity s => Infinity s
  | S754_zero s => Finite s 0 (-1)
  | S754_finite s m e =>
      let (c, q) := PyFloat.shortest s m e in
      let nd := ndigits c in
      let decpt := q + nd in
      if (decpt <=? -4) || (16 <? decpt) then Finite s c q
      else if nd <=? decpt then Finite s (c * 10 ^ (decpt - nd + 1)) (-1)
      else Finite s c q
  end.

End PyDecimal.

(** ** The web3 boundary *)

Module Web3.

Definition address : Type := string.
Definition tx_hash : Type := Z.

(** Read-only contract functions of the registry, staking, pool and token
    contracts. *)
Inductive view : Type :=
| isImmunized (agent : address)
| getThreatLevel (agent : address)
| totalReserves
| totalCoverageProvided
| getAvailableCapacity
| calculatePremium (amount duration risk_score : Z)
| getAgentInfo (agent : address)
| balanceOf (owner : address).

(** State-changing contract functions. *)
Inductive write : Type :=
| approve (spender : address) (amount : Z)
| createCoverage (agent protocol : address) (amount duration risk_score : Z)
| stakeAsAgent (amount : Z)
| registerAgent (agent : address)
| immunize (agent : address)
| requestUnstake
| executeUnstake.

Record transaction : Type := {
  tx_to : address;
  tx_data : write;
  tx_from : address;
  tx_nonce : Z;
  tx_gas : Z;
  tx_maxFeePerGas : Z;
  tx_maxPriorityFeePerGas : Z
}.

(** The requests a method body issues to the RPC endpoint: a contract read
    ([.call()]), a nonce query, the submission of a signed transaction and
    the wait for its receipt. The trace holds these and nothing else: the
    lookups web3 makes on its own behalf while it prepares one of them (the
    chain id, when it validates a call or builds a transaction) are not
    recorded, and arguments are not checked against the ABI types, so a
    request web3 would refuse to encode (a negative or oversized [uint256])
    is still shown as issued. *)
Inductive rpc : Type :=
| eth_call (contract : address) (f : view)
| get_transaction_count (account : address)
| send_raw_transaction (t : transaction)
| wait_for_transaction_receipt (h : tx_hash).

(** The endpoint and the local helpers of web3. Every answer of the
    endpoint depends on the time of the request (the number of recorded
    requests made before it), so the ledger may change between any two
    reads, and any request may fail. *)
Record Env : Type := {
  to_checksum_address : string -> result address;
  from_key : string -> result address;
  ans_isImmunized : nat -> address -> result bool;
  ans_getThreatLevel : nat -> address -> result Z;
  ans_totalReserves : nat -> result Z;
  ans_totalCoverageProvided : nat -> result Z;
  ans_getAvailableCapacity : nat -> result Z;
  ans_calculatePremium : nat -> Z -> Z -> Z -> result Z;
  ans_getAgentInfo : nat -> address -> result (Z * Z * Z * Z * bool);
  ans_balanceOf : nat -> address -> result Z;
  ans_get_transaction_count : nat -> address -> result Z;
  ans_send_raw_transaction : nat -> transaction -> result tx_hash;
  ans_wait_for_transaction_receipt : nat -> tx_hash -> result unit
}.

(** A method body: it reads the environment, extends the trace of requests
    and returns or raises. *)
Definition M (A : Type) : Type := Env -> list rpc -> result A * list rpc.

Definition ret {A : Type} (a : A) : M A := fun _ tr => (Ok a, tr).

Definition raise {A : Type} (e : exn) : M A := fun _ tr => (Raise e, tr).

Definition bind {A B : Type} (m : M A) (k : A -> M B) : M B :=
  fun env tr =>
    match m env tr with
    | (Ok a, tr') => k a env tr'
    | (Raise e, tr') => (Raise e, tr')
    end.

(** A local computation that may raise. *)
Definition lift {A : Type} (r : result A) : M A := fun _ tr => (r, tr).

Definition local_ {A : Type} (f : Env -> result A) : M A :=
  fun env tr => (f env, tr).

(** One request: it is answered at the current time and logged. *)
Definition request {A : Type} (ev : rpc) (answer : Env -> nat -> result A)
  : M A :=
  fun env tr => (answer env (List.length tr), (tr ++ [ev])%list).

Definition to_wei_gwei_0_1 : Z := 100000000.
Definition to_wei_gwei_0_001 : Z := 1000000.

(** [f(...).build_transaction({...})] with a fresh nonce, signed and sent.
    The nonce query and the submission are recorded. Building and signing
    are taken to succeed and leave no event, although web3 asks the endpoint
    for the chain id while building: the properties of the write flows
    bound what is submitted, or start from a run that succeeded. *)
Definition transact (contract : address) (f : write) (sender : address)
           (gas : Z) : M tx_hash :=
  bind (request (get_transaction_count sender)
                (fun env t => ans_get_transaction_count env t sender))
       (fun nonce =>
          let t := {| tx_to := contract; tx_data := f; tx_from := sender;
                      tx_nonce := nonce; tx_gas := gas;
                      tx_maxFeePerGas := to_wei_gwei_0_1;
                      tx_maxPriorityFeePerGas := to_wei_gwei_0_001 |} in
          request (send_raw_transaction t)
                  (fun env tm => ans_send_raw_transaction env tm t)).

Definition wait_receipt (h : tx_hash) : M unit :=
  request (wait_for_transaction_receipt h)
          (fun env t => ans_wait_for_transaction_receipt env t h).

End Web3.

Declare Scope web3_scope.
Delimit Scope web3_scope with web3.
Notation "x <- c ;; k" := (Web3.bind c (fun x => k))
  (at level 61, c at next level, right associativity) : web3_scope.
Notation "c ;;; k" := (Web3.bind c (fun _ => k))
  (at level 61, right associativity) : web3_scope.
Open Scope web3_scope.

(** Deployed addresses, from [contracts.py]. *)
Definition AGENT_INSURANCE_POOL : string :=
  "0x206E260A07b9389E1Cb6f2a42BAEAc6E1374f6F1".
Definition AGENT_STAKING : string :=
  "0x585aaF900b573a1408fbEB8b02EAf343BdAaae62".
Definition LOBSEC_REGISTRY : string :=
  "0x0BDb4d48860520B60C0EF96c2B225aF0c36240c3".
Definition USDC : string :=
  "0x833589fCD6eDb6E08f4c7C32D4f71b54bdA02913".

(** ** [contracts.py]: the interface tables *)

(** One entry of an ABI list; [internalType] repeats [type] in every entry
    of the source and the [indexed] flags of events are left out. *)
Record abi_entry : Type := {
  abi_type : string;
  abi_name : string;
  abi_inputs : list (string * string);
  abi_outputs : list (string * string);
  abi_stateMutability : string
}.

Open Scope string_scope.

Definition AGENT_INSURANCE_POOL_ABI : list abi_entry :=
[ {| abi_type := "constructor"; abi_name := "";
     abi_inputs := [("_usdc", "address"); ("_oracle", "address")];
     abi_outputs := [];
     abi_stateMutability := "nonpayable" |};
  {| abi_type := "function"; abi_name := "createCoverage";
     abi_inputs := [("agent", "address"); ("protocol", "address");
       ("amount", "uint256"); ("duration", "uint256");
       ("riskScore", "uint256")];
     abi_outputs := [("coverageId", "bytes32")];
     abi_stateMutability := "nonpayable" |};
  {| abi_type := "function"; abi_name := "coverages";
     abi_inputs := [("coverageId", "bytes32")];
     abi_outputs := [("agent", "address"); ("protocol", "address");
       ("amount", "uint256"); ("premium", "uint256");
       ("startTime", "uint256"); ("duration", "uint256"); ("active", "bool")];
     abi_stateMutability := "view" |};
  {| abi_type := "function"; abi_name := "getAvailableCapacity";
     abi_inputs := [];
     abi_outputs := [("", "uint256")];
     abi_stateMutability := "view" |};
  {| abi_type := "function"; abi_name := "calculatePremium";
     abi_inputs := [("amount", "uint256"); ("duration", "uint256");
       ("riskScore", "uint256")];
     abi_outputs := [("", "uint256")];
     abi_stateMutability := "pure" |};
  {| abi_type := "function"; abi_name := "provideLiquidity";
     abi_inputs := [("amount", "uint256")];
     abi_outputs := [];
     abi_stateMutability := "nonpayable" |};
  {| abi_type := "function"; abi_name := "withdrawLiquidity";
     abi_inputs := [("lpTokens", "uint256")];
     abi_outputs := [];
     abi_stateMutability := "nonpayable" |};
  {| abi_type := "function"; abi_name := "lpBalances";
     abi_inputs := [("", "address")];
     abi_outputs := [("", "uint256")];
     abi_stateMutability := "view" |};
  {| abi_type := "function"; abi_name := "totalReserves";
     abi_inputs := [];
     abi_outputs := [("", "uint256")];
     abi_stateMutability := "view" |};
  {| abi_type := "function"; abi_name := "totalCoverageProvided";
     abi_inputs := [];
     abi_outputs := [("", "uint256")];
     abi_stateMutability := "view" |};
  {| abi_type := "event"; abi_name := "CoverageCreated";
     abi_inputs := [("coverageId", "bytes32"); ("agent", "address");
       ("protocol", "address"); ("amount", "uint256")];
     abi_outputs := [];
     abi_stateMutability := "" |} ].

Definition AGENT_STAKING_ABI : list abi_entry :=
[ {| abi_type := "constructor"; abi_name := "";
     abi_inputs := [("_usdc", "address"); ("_lobSecRegistry", "address");
       ("_oracle", "address")];
     abi_outputs := [];
     abi_stateMutability := "nonpayable" |};
  {| abi_type := "function"; abi_name := "stakeAsAgent";
     abi_inputs := [("amount", "uint256")];
     abi_outputs := [];
     abi_stateMutability := "nonpayable" |};
  {| abi_type := "function"; abi_name := "requestCoverage";
     abi_inputs := [("protocol", "address"); ("amount", "uint256");
       ("duration", "uint256")];
     abi_outputs := [("coverageId", "bytes32")];
     abi_stateMutability := "nonpayable" |};
  {| abi_type := "function"; abi_name := "getStakedAmount";
     abi_inputs := [("agent", "address")];
     abi_outputs := [("stakedAmount", "uint256")];
     abi_stateMutability := "view" |};
  {| abi_type := "function"; abi_name := "getAgentInfo";
     abi_inputs := [("agent", "address")];
     abi_outputs := [("stakedAmount", "uint256"); ("privilegeLevel", "uint8");
       ("activeCoverage", "uint256"); ("availableCoverage", "uint256");
       ("canRequestCoverage", "bool")];
     abi_stateMutability := "view" |};
  {| abi_type := "function"; abi_name := "requestUnstake";
     abi_inputs := [];
     abi_outputs := [];
     abi_stateMutability := "nonpayable" |};
  {| abi_type := "function"; abi_name := "executeUnstake";
     abi_inputs := [];
     abi_outputs := [];
     abi_stateMutability := "nonpayable" |};
  {| abi_type := "function"; abi_name := "agentStakes";
     abi_inputs := [("agent", "address")];
     abi_outputs := [("stakedAmount", "uint256"); ("lockedUntil", "uint256");
       ("privilegeLevel", "uint8"); ("activeCoverage", "uint256");
       ("lastSlashTime", "uint256"); ("exists", "bool")];
     abi_stateMutability := "view" |};
  {| abi_type := "event"; abi_name := "AgentStaked";
     abi_inputs := [("agent", "address"); ("amount", "uint256");
       ("privilege", "uint8")];
     abi_outputs := [];
     abi_stateMutability := "" |} ].

Definition LOBSEC_REGISTRY_ABI : list abi_entry :=
[ {| abi_type := "function"; abi_name := "isImmunized";
     abi_inputs := [("agent", "address")];
     abi_outputs := [("", "bool")];
     abi_stateMutability := "view" |};
  {| abi_type := "function"; abi_name := "getThreatLevel";
     abi_inputs := [("agent", "address")];
     abi_outputs := [("", "uint8")];
     abi_stateMutability := "view" |};
  {| abi_type := "function"; abi_name := "registerAgent";
     abi_inputs := [("agent", "address")];
     abi_outputs := [];
     abi_stateMutability := "nonpayable" |};
  {| abi_type := "function"; abi_name := "immunize";
     abi_inputs := [("agent", "address")];
     abi_outputs := [];
     abi_stateMutability := "nonpayable" |} ].

Definition USDC_ABI : list abi_entry :=
[ {| abi_type := "function"; abi_name := "approve";
     abi_inputs := [("spender", "address"); ("amount", "uint256")];
     abi_outputs := [("", "bool")];
     abi_stateMutability := "nonpayable" |};
  {| abi_type := "function"; abi_name := "balanceOf";
     abi_inputs := [("account", "address")];
     abi_outputs := [("", "uint256")];
     abi_stateMutability := "view" |};
  {| abi_type := "function"; abi_name := "allowance";
     abi_inputs := [("owner", "address"); ("spender", "address")];
     abi_outputs := [("", "uint256")];
     abi_stateMutability := "view" |};
  {| abi_type := "function"; abi_name := "decimals";
     abi_inputs := [];
     abi_outputs := [("", "uint8")];
     abi_stateMutability := "view" |};
  {| abi_type := "function"; abi_name := "transfer";
     abi_inputs := [("to", "address"); ("amount", "uint256")];
     abi_outputs := [("", "bool")];
     abi_stateMutability := "nonpayable" |} ].

Close Scope string_scope.

(** [override or default] on an optional string: [None] and the empty
    string are both falsy. *)
Definition or_default (override : option string) (default : string)
  : string :=
  match override with
  | Some a => if String.eqb a "" then default else a
  | None => default
  end.

(** ** [registry.py] *)

Module LobSecRegistry.
Import Web3.

Record AgentStatus : Type := {
  address : Web3.address;
  immunized : bool;
  threat_level : Z;
  safe : bool
}.

Definition is_immunized (self : Web3.address) (agent_address : string)
  : M bool :=
  agent <- local_ (fun env => to_checksum_address env agent_address) ;;
  request (eth_call self (isImmunized agent))
          (fun env t => ans_isImmunized env t agent).

Definition get_threat_level (self : Web3.address) (agent_address : string)
  : M Z :=
  agent <- local_ (fun env => to_checksum_address env agent_address) ;;
  request (eth_call self (getThreatLevel agent))
          (fun env t => ans_getThreatLevel env t agent).

(** The dictionary is built entry by entry; [a and b] evaluates [b] only
    when [a] holds. *)
Definition get_agent_status (self : Web3.address) (agent_address : string)
  : M AgentStatus :=
  agent <- local_ (fun env => to_checksum_address env agent_address) ;;
  immunized_ <- is_immunized self agent ;;
  threat_level_ <- get_threat_level self agent ;;
  again <- get_threat_level self agent ;;
  safe_ <- (if again <? 50 then is_immunized self agent else ret false) ;;
  ret {| address := agent; immunized := immunized_;
         threat_level := threat_level_; safe := safe_ |}.

Definition register_agent (self : Web3.address)
           (agent_address private_key : string) : M tx_hash :=
  agent <- local_ (fun env => to_checksum_address env agent_address) ;;
  account <- local_ (fun env => from_key env private_key) ;;
  transact self (registerAgent agent) account 200000.

Definition immunize_agent (self : Web3.address)
           (agent_address private_key : string) : M tx_hash :=
  agent <- local_ (fun env => to_checksum_address env agent_address) ;;
  account <- local_ (fun env => from_key env private_key) ;;
  transact self (immunize agent) account 200000.

(** [LobSecRegistry(w3, contract_address)]: the object is its checksummed
    address. *)
Definition __init__ (contract_address : option string) (env : Env)
  : result Web3.address :=
  to_checksum_address env (or_default contract_address LOBSEC_REGISTRY).

End LobSecRegistry.

(** ** [insurance.py] *)

(** A Python number that is either an [int] or a [float]. *)
Inductive number : Type :=
| Int (n : Z)
| Float (x : PyFloat.float).

(** [round(v, 2)]: an [int] is returned unchanged. *)
Definition round_number (v : number) : number :=
  match v with
  | Int n => Int n
  | Float x => Float (PyFloat.round2 x)
  end.

Module InsurancePool.
Import Web3.

Record t : Type := {
  pool_address : Web3.address;
  staking_address : Web3.address;
  usdc : Web3.address
}.

Definition USDC_DECIMALS : Z := 6.

(** [int(Decimal(str(amount)) * Decimal(10 ** self.USDC_DECIMALS))] *)
Definition _to_usdc_units (amount : PyFloat.float) : result Z :=
  rbind (PyDecimal.mul (PyDecimal.of_float_str amount)
                       (PyDecimal.of_int (10 ^ USDC_DECIMALS)))
        PyDecimal.to_int.

(** [float(Decimal(amount) / Decimal(10 ** self.USDC_DECIMALS))] *)
Definition _from_usdc_units (amount : Z) : result PyFloat.float :=
  rbind (PyDecimal.div (PyDecimal.of_int amount)
                       (PyDecimal.of_int (10 ^ USDC_DECIMALS)))
        (fun d => Ok (PyDecimal.to_float d)).

Record PoolInfo : Type := {
  total_reserves_usd : PyFloat.float;
  total_coverage_usd : PyFloat.float;
  available_capacity_usd : PyFloat.float;
  utilization_percent : number
}.

(** [(total_coverage / total_reserves) * 100] *)
Definition utilization_of (total_coverage total_reserves : Z)
  : result number :=
  if 0 <? total_reserves then
    rbind (PyFloat.int_true_div total_coverage total_reserves)
          (fun q => Ok (Float (PyFloat.mul q (PyFloat.of_int 100))))
  else Ok (Int 0).

Definition get_pool_info (self : t) : M PoolInfo :=
  total_reserves <- request (eth_call (pool_address self) totalReserves)
                            (fun env tm => ans_totalReserves env tm) ;;
  total_coverage <- request (eth_call (pool_address self)
                                      totalCoverageProvided)
                            (fun env tm => ans_totalCoverageProvided env tm) ;;
  available <- request (eth_call (pool_address self) getAvailableCapacity)
                       (fun env tm => ans_getAvailableCapacity env tm) ;;
  utilization <- lift (utilization_of total_coverage total_reserves) ;;
  reserves_usd <- lift (_from_usdc_units total_reserves) ;;
  coverage_usd <- lift (_from_usdc_units total_coverage) ;;
  available_usd <- lift (_from_usdc_units available) ;;
  ret {| total_reserves_usd := reserves_usd;
         total_coverage_usd := coverage_usd;
         available_capacity_usd := available_usd;
         utilization_percent := round_number utilization |}.

Definition calculate_premium (self : t) (amount : PyFloat.float)
           (duration_days risk_score : Z) : M PyFloat.float :=
  amount_units <- lift (_to_usdc_units amount) ;;
  let duration_seconds := duration_days * 24 * 60 * 60 in
  premium <- request
      (eth_call (pool_address self)
                (calculatePremium amount_units duration_seconds risk_score))
      (fun env tm =>
         ans_calculatePremium env tm amount_units duration_seconds
                              risk_score) ;;
  lift (_from_usdc_units premium).

Record CoverageInfo : Type := {
  staked_amount_usd : PyFloat.float;
  privilege_level : Z;
  active_coverage_usd : PyFloat.float;
  available_coverage_usd : PyFloat.float;
  can_request_coverage : bool
}.

Definition get_agent_coverage_info (self : t) (agent_address : string)
  : M CoverageInfo :=
  agent <- local_ (fun env => to_checksum_address env agent_address) ;;
  info <- request (eth_call (staking_address self) (getAgentInfo agent))
                  (fun env tm => ans_getAgentInfo env tm agent) ;;
  let '(i0, i1, i2, i3, i4) := info in
  staked <- lift (_from_usdc_units i0) ;;
  active <- lift (_from_usdc_units i2) ;;
  available <- lift (_from_usdc_units i3) ;;
  ret {| staked_amount_usd := staked; privilege_level := i1;
         active_coverage_usd := active; available_coverage_usd := available;
         can_request_coverage := i4 |}.

Definition is_covered (self : t) (agent_address : string)
           (amount : option PyFloat.float) : M bool :=
  agent <- local_ (fun env => to_checksum_address env agent_address) ;;
  info <- get_agent_coverage_info self agent ;;
  if negb (can_request_coverage info) then ret false
  else
    match amount with
    | Some a => ret (PyFloat.leb a (available_coverage_usd info))
    | None => ret (PyFloat.ltb (S754_zero false) (available_coverage_usd info))
    end.

Definition purchase_coverage (self : t) (agent_address protocol_address : string)
           (amount : PyFloat.float) (duration_days : Z) (private_key : string)
           (risk_score : Z) : M tx_hash :=
  agent <- local_ (fun env => to_checksum_address env agent_address) ;;
  protocol <- local_ (fun env => to_checksum_address env protocol_address) ;;
  amount_units <- lift (_to_usdc_units amount) ;;
  let duration_seconds := duration_days * 24 * 60 * 60 in
  account <- local_ (fun env => from_key env private_key) ;;
  premium_units <- request
      (eth_call (pool_address self)
                (calculatePremium amount_units duration_seconds risk_score))
      (fun env tm =>
         ans_calculatePremium env tm amount_units duration_seconds
                              risk_score) ;;
  approve_hash <- transact (usdc self)
                           (approve (pool_address self) premium_units)
                           account 100000 ;;
  wait_receipt approve_hash ;;;
  transact (pool_address self)
           (createCoverage agent protocol amount_units duration_seconds
                           risk_score)
           account 300000.

Definition stake_for_insurance (self : t) (amount : PyFloat.float)
           (private_key : string) : M tx_hash :=
  amount_units <- lift (_to_usdc_units amount) ;;
  account <- local_ (fun env => from_key env private_key) ;;
  approve_hash <- transact (usdc self)
                           (approve (staking_address self) amount_units)
                           account 100000 ;;
  wait_receipt approve_hash ;;;
  transact (staking_address self) (stakeAsAgent amount_units) account 200000.

(** [InsurancePool(w3, pool_address, staking_address)] *)
Definition __init__ (pool_address staking_address : option string)
           (env : Env) : result t :=
  rbind (to_checksum_address env
           (or_default pool_address AGENT_INSURANCE_POOL))
        (fun pool =>
  rbind (to_checksum_address env (or_default staking_address AGENT_STAKING))
        (fun staking =>
  rbind (to_checksum_address env USDC)
        (fun token =>
  Ok {| pool_address := pool; staking_address := staking;
        usdc := token |}))).

End InsurancePool.

(** ** [agent.py] *)

Module Agent.
Import Web3.

Record t : Type := {
  address : Web3.address;
  _private_key : string;
  registry : Web3.address;
  insurance : InsurancePool.t
}.

Record Quote : Type := {
  coverage_amount_usd : PyFloat.float;
  duration_days : Z;
  base_premium_usd : PyFloat.float;
  discount_percent : PyFloat.float;
  final_premium_usd : PyFloat.float;
  immunized : bool
}.

Definition immunize (self : t) : M tx_hash :=
  LobSecRegistry.register_agent (registry self) (address self)
                                (_private_key self).

Definition stake (self : t) (usd : PyFloat.float) : M tx_hash :=
  if PyFloat.ltb usd (PyFloat.of_int 100)
  then raise (ValueError "Minimum stake is $100 USDC")
  else InsurancePool.stake_for_insurance (insurance self) usd
                                         (_private_key self).

Definition is_covered (self : t) (amount : option PyFloat.float) : M bool :=
  InsurancePool.is_covered (insurance self) (address self) amount.

Definition coverage_info (self : t) : M InsurancePool.CoverageInfo :=
  InsurancePool.get_agent_coverage_info (insurance self) (address self).

Definition registry_status (self : t) : M LobSecRegistry.AgentStatus :=
  LobSecRegistry.get_agent_status (registry self) (address self).

(** The literals [0.5] and [0.0]. *)
Definition half : PyFloat.float := S754_finite false 4503599627370496 (-53).
Definition zero : PyFloat.float := S754_zero false.

Definition get_premium_quote (self : t) (coverage_amount : PyFloat.float)
           (duration_days_ : Z) : M Quote :=
  base_premium <- InsurancePool.calculate_premium
                    (insurance self) coverage_amount duration_days_ 1000 ;;
  status <- registry_status self ;;
  let discount := if LobSecRegistry.immunized status then half else zero in
  let final_premium :=
    PyFloat.mul base_premium (PyFloat.sub (PyFloat.of_int 1) discount) in
  ret {| coverage_amount_usd := coverage_amount;
         duration_days := duration_days_;
         base_premium_usd := PyFloat.round2 base_premium;
         discount_percent := PyFloat.mul discount (PyFloat.of_int 100);
         final_premium_usd := PyFloat.round2 final_premium;
         immunized := LobSecRegistry.immunized status |}.

Definition purchase_coverage (self : t) (protocol_address : string)
           (amount : PyFloat.float) (duration_days_ : Z) : M tx_hash :=
  status <- registry_status self ;;
  let risk_score := if LobSecRegistry.immunized status then 500 else 1000 in
  InsurancePool.purchase_coverage (insurance self) (address self)
                                  protocol_address amount duration_days_
                                  (_private_key self) risk_score.

(** What the constructor raises: an exception of a helper, or its own
    [ConnectionError]. *)
Inductive init_exn : Type :=
| Propagated (e : exn)
| ConnectionError (msg : string).

(** [Agent(address, private_key, rpc_url, pool_address, registry_address)];
    [connected] is the answer of [w3.is_connected()]. The pool client is
    built with the pool override only. *)
Definition __init__ (env : Env) (connected : bool)
           (address_ private_key rpc_url : string)
           (pool_address registry_address : option string)
  : t + init_exn :=
  match to_checksum_address env address_ with
  | Raise e => inr (Propagated e)
  | Ok a =>
      if negb connected
      then inr (ConnectionError ("Failed to connect to " ++ rpc_url)%string)
      else
        match LobSecRegistry.__init__ registry_address env with
        | Raise e => inr (Propagated e)
        | Ok reg =>
            match InsurancePool.__init__ pool_address None env with
            | Raise e => inr (Propagated e)
            | Ok ins =>
                inl {| address := a; _private_key := private_key;
                       registry := reg; insurance := ins |}
            end
        end
  end.

(** The [balance_usdc] property. *)
Definition balance_usdc (self : t) : M PyFloat.float :=
  units <- request (eth_call (InsurancePool.usdc (insurance self))
                             (balanceOf (address self)))
                   (fun env tm => ans_balanceOf env tm (address self)) ;;
  lift (InsurancePool._from_usdc_units units).

Definition unstake_request (self : t) : M tx_hash :=
  account <- local_ (fun env => from_key env (_private_key self)) ;;
  transact (InsurancePool.staking_address (insurance self)) requestUnstake
           account 150000.

Definition unstake_execute (self : t) : M tx_hash :=
  account <- local_ (fun env => from_key env (_private_key self)) ;;
  transact (InsurancePool.staking_address (insurance self)) executeUnstake
           account 150000.

End Agent.

(** ** The spec's words, for comparison *)

(** [str(x)] shows a finite decimal with at most [n] decimals. *)
Definition decimals_at_most (n : Z) (x : PyFloat.float) : bool :=
  match PyDecimal.of_float_str x with
  | PyDecimal.Finite _ _ e => - n <=? e
  | _ => false
  end.

(** [100 * total_coverage / total_reserves] rounded to two decimals in
    exact arithmetic (halves to even), read as a float. *)
Definition utilization_exact (total_coverage total_reserves : Z)
  : PyFloat.float :=
  PyFloat.round_Q false
    (PyFloat.Qround_half_even
       ((100 * total_coverage # Z.to_pos total_reserves) * 100) # 100).

(** ** Observations on traces *)

(** The contract writes submitted in a trace, oldest first. *)
Fixpoint writes (tr : list Web3.rpc) : list Web3.write :=
  match tr with
  | [] => []
  | Web3.send_raw_transaction t :: tr' => Web3.tx_data t :: writes tr'
  | _ :: tr' => writes tr'
  end.

(** The number of threat-level queries in a trace. *)
Fixpoint threat_queries (tr : list Web3.rpc) : nat :=
  match tr with
  | [] => O
  | Web3.eth_call _ (Web3.getThreatLevel _) :: tr' => S (threat_queries tr')
  | _ :: tr' => threat_queries tr'
  end.

Definition is_createCoverage (w : Web3.write) : bool :=
  match w with
  | Web3.createCoverage _ _ _ _ _ => true
  | _ => false
  end.

Definition is_approve (w : Web3.write) : bool :=
  match w with
  | Web3.approve _ _ => true
  | _ => false
  end.

(** The senders of the transactions submitted in a trace. *)
Fixpoint senders (tr : list Web3.rpc) : list Web3.address :=
  match tr with
  | [] => []
  | Web3.send_raw_transaction t :: tr' => Web3.tx_from t :: senders tr'
  | _ :: tr' => senders tr'
  end.

(** Every transaction in [evs], a stretch of trace that starts at time
    [t0], directly follows a nonce query for its sender and carries the
    answer to that query. *)
Fixpoint fresh_nonces (env : Web3.Env) (t0 : nat) (evs : list Web3.rpc)
  : Prop :=
  match evs with
  | [] => True
  | Web3.send_raw_transaction _ :: _ => False
  | Web3.get_transaction_count a :: rest =>
      match rest with
      | Web3.send_raw_transaction t :: rest' =>
          Web3.ans_get_transaction_count env t0 a = Ok (Web3.tx_nonce t) /\
          Web3.tx_from t = a /\
          fresh_nonces env (t0 + 2) rest'
      | _ => fresh_nonces env (t0 + 1) rest
      end
  | _ :: rest => fresh_nonces env (t0 + 1) rest
  end.

(** From [tr] to [tr'] every transaction was sent from [account] with a
    fresh nonce. *)
Definition sent_by (env : Web3.Env) (account : Web3.address)
           (tr tr' : list Web3.rpc) : Prop :=
  exists evs : list Web3.rpc,
    tr' = (tr ++ evs)%list /\
    Forall (eq account) (senders evs) /\
    fresh_nonces env (List.length tr) evs.

(** *** Call sites against the interface tables *)

(** What the Python side passes or expects at a parameter. *)
Inductive py_kind : Type := PyAddress | PyInt | PyBool.

Definition fits (k : py_kind) (ty : string) : bool :=
  match k with
  | PyAddress => String.eqb ty "address"
  | PyInt => String.eqb ty "uint256" || String.eqb ty "uint8"
  | PyBool => String.eqb ty "bool"
  end.

Fixpoint all_fit (ks : list py_kind) (tys : list (string * string)) : bool :=
  match ks, tys with
  | [], [] => true
  | k :: ks', (_, ty) :: tys' => fits k ty && all_fit ks' tys'
  | _, _ => false
  end.

(** The functions of an ABI with a given name. *)
Definition lookup_function (abi : list abi_entry) (name : string)
  : list abi_entry :=
  filter (fun e => String.eqb (abi_type e) "function"
                   && String.eqb (abi_name e) name) abi.

(** A call site resolves when the ABI has exactly one function of that
    name, its parameters accept the arguments, its results are what the
    caller uses, and its mutability is among the expected ones. *)
Definition resolves (abi : list abi_entry) (name : string)
           (args results : list py_kind) (mutability : list string) : bool :=
  match lookup_function abi name with
  | [e] => all_fit args (abi_inputs e) && all_fit results (abi_outputs e)
           && existsb (String.eqb (abi_stateMutability e)) mutability
  | _ => false
  end.

(** For each read the SDK makes: the ABI of the contract object it goes
    through, the function name, the arguments passed and the use made of
    the result. *)
Definition view_site (f : Web3.view)
  : list abi_entry * string * list py_kind * list py_kind :=
  match f with
  | Web3.isImmunized _ =>
      (LOBSEC_REGISTRY_ABI, "isImmunized"%string, [PyAddress], [PyBool])
  | Web3.getThreatLevel _ =>
      (LOBSEC_REGISTRY_ABI, "getThreatLevel"%string, [PyAddress], [PyInt])
  | Web3.totalReserves =>
      (AGENT_INSURANCE_POOL_ABI, "totalReserves"%string, [], [PyInt])
  | Web3.totalCoverageProvided =>
      (AGENT_INSURANCE_POOL_ABI, "totalCoverageProvided"%string, [], [PyInt])
  | Web3.getAvailableCapacity =>
      (AGENT_INSURANCE_POOL_ABI, "getAvailableCapacity"%string, [], [PyInt])
  | Web3.calculatePremium _ _ _ =>
      (AGENT_INSURANCE_POOL_ABI, "calculatePremium"%string,
       [PyInt; PyInt; PyInt], [PyInt])
  | Web3.getAgentInfo _ =>
      (AGENT_STAKING_ABI, "getAgentInfo"%string, [PyAddress],
       [PyInt; PyInt; PyInt; PyInt; PyBool])
  | Web3.balanceOf _ => (USDC_ABI, "balanceOf"%string, [PyAddress], [PyInt])
  end.

(** For each write: the ABI, the function name and the arguments. *)
Definition write_site (w : Web3.write)
  : list abi_entry * string * list py_kind :=
  match w with
  | Web3.approve _ _ => (USDC_ABI, "approve"%string, [PyAddress; PyInt])
  | Web3.createCoverage _ _ _ _ _ =>
      (AGENT_INSURANCE_POOL_ABI, "createCoverage"%string,
       [PyAddress; PyAddress; PyInt; PyInt; PyInt])
  | Web3.stakeAsAgent _ => (AGENT_STAKING_ABI, "stakeAsAgent"%string, [PyInt])
  | Web3.registerAgent _ =>
      (LOBSEC_REGISTRY_ABI, "registerAgent"%string, [PyAddress])
  | Web3.immunize _ => (LOBSEC_REGISTRY_ABI, "immunize"%string, [PyAddress])
  | Web3.requestUnstake => (AGENT_STAKING_ABI, "requestUnstake"%string, [])
  | Web3.executeUnstake => (AGENT_STAKING_ABI, "executeUnstake"%string, [])
  end.

(** ** Scripted endpoints used in the examples *)

Module Scenario.

(** Addresses are accepted as they are; the registry answers [imm] and
    [threat] as functions of time; the pool reports fixed figures; every
    transaction gets hash 1 and [receipt] is the outcome of waiting. *)
Definition env (imm : nat -> bool) (threat : nat -> Z)
           (reserves coverage capacity premium : Z)
           (info : Z * Z * Z * Z * bool) (receipt : result unit)
  : Web3.Env :=
  {| Web3.to_checksum_address := fun a => Ok a;
     Web3.from_key := fun _ => Ok "0xSigner"%string;
     Web3.ans_isImmunized := fun tm _ => Ok (imm tm);
     Web3.ans_getThreatLevel := fun tm _ => Ok (threat tm);
     Web3.ans_totalReserves := fun _ => Ok reserves;
     Web3.ans_totalCoverageProvided := fun _ => Ok coverage;
     Web3.ans_getAvailableCapacity := fun _ => Ok capacity;
     Web3.ans_calculatePremium := fun _ _ _ _ => Ok premium;
     Web3.ans_getAgentInfo := fun _ _ => Ok info;
     Web3.ans_balanceOf := fun _ _ => Ok 0;
     Web3.ans_get_transaction_count := fun _ _ => Ok 7;
     Web3.ans_send_raw_transaction := fun _ _ => Ok 1;
     Web3.ans_wait_for_transaction_receipt := fun _ _ => receipt |}.

Definition pool : InsurancePool.t :=
  {| InsurancePool.pool_address := AGENT_INSURANCE_POOL;
     InsurancePool.staking_address := AGENT_STAKING;
     InsurancePool.usdc := USDC |}.

Definition addr : string := "0xAgent".

Definition agent : Agent.t :=
  {| Agent.address := addr;
     Agent._private_key := "key"%string;
     Agent.registry := LOBSEC_REGISTRY;
     Agent.insurance := pool |}.

(** A quiet ledger: immunized, threat level 10. *)
Definition calm (premium : Z) (receipt : result unit) : Web3.Env :=
  env (fun _ => true) (fun _ => 10) 160 23 137 premium
      (500000000, 2, 0, 1000000000, true) receipt.

(** A ledger whose threat level rises from 10 to 60 after the second
    request. *)
Definition rising : Web3.Env :=
  env (fun _ => true) (fun tm => if (tm <? 2)%nat then 10 else 60)
      0 0 0 0 (0, 0, 0, 0, false) (Ok tt).

(** Some floats: 1.5, -1.5, 100.0, 99.5 and 1000.0. *)
Definition f_1_5 : PyFloat.float := S754_finite false 6755399441055744 (-52).
Definition f_neg_1_5 : PyFloat.float := S754_finite true 6755399441055744 (-52).
Definition f_100 : PyFloat.float := S754_finite false 7036874417766400 (-46).
Definition f_99_5 : PyFloat.float := S754_finite false 7001690045677568 (-46).
Definition f_1000 : PyFloat.float := S754_finite false 8796093022208000 (-43).

(** 0.01, 0.005, 14.37, 14.38 and 50.0. *)
Definition f_0_01 : PyFloat.float := S754_finite false 5764607523034235 (-59).
Definition f_0_005 : PyFloat.float := S754_finite false 5764607523034235 (-60).
Definition f_14_37 : PyFloat.float := S754_finite false 8089590830664253 (-49).
Definition f_14_38 : PyFloat.float := S754_finite false 8095220330198467 (-49).
Definition f_50 : PyFloat.float := S754_finite false 7036874417766400 (-47).

End Scenario.

(** * Properties *)

(** ** Running method bodies *)

Lemma bind_ok {A B : Type} (m : Web3.M A) (k : A -> Web3.M B) env tr a tr1 :
  m env tr = (Ok a, tr1) -> Web3.bind m k env tr = k a env tr1.
Proof. intros H. unfold Web3.bind. rewrite H. reflexivity. Qed.

Lemma bind_raise {A B : Type} (m : Web3.M A) (k : A -> Web3.M B) env tr e tr1 :
  m env tr = (Raise e, tr1) -> Web3.bind m k env tr = (Raise e, tr1).
Proof. intros H. unfold Web3.bind. rewrite H. reflexivity. Qed.

Lemma bind_inv {A B : Type} (m : Web3.M A) (k : A -> Web3.M B) env tr r tr2 :
  Web3.bind m k env tr = (r, tr2) ->
  (exists a tr1, m env tr = (Ok a, tr1) /\ k a env tr1 = (r, tr2)) \/
  (exists e, m env tr = (Raise e, tr2) /\ r = Raise e).
Proof.
  unfold Web3.bind. destruct (m env tr) as [[a | e] tr1]; intros H.
  - left. exists a, tr1. split; [reflexivity | exact H].
  - right. exists e. inversion H; subst. split; reflexivity.
Qed.

Lemma threat_queries_app (l1 l2 : list Web3.rpc) :
  threat_queries (l1 ++ l2) = (threat_queries l1 + threat_queries l2)%nat.
Proof.
  induction l1 as [| ev l1 IH]; simpl; [reflexivity |].
  destruct ev as [c f | | |]; try exact IH.
  destruct f; simpl; try exact IH. now rewrite IH.
Qed.

Lemma writes_app (l1 l2 : list Web3.rpc) :
  writes (l1 ++ l2) = (writes l1 ++ writes l2)%list.
Proof.
  induction l1 as [| ev l1 IH]; simpl; [reflexivity |].
  destruct ev; simpl; try exact IH. now rewrite IH.
Qed.

(** ** The registry status *)

Section RegistryStatus.

Variable env : Web3.Env.
Variable self : Web3.address.
Variables (agent_address : string) (agent : Web3.address).
Hypothesis checksum_arg : Web3.to_checksum_address env agent_address = Ok agent.
Hypothesis checksum_idem : Web3.to_checksum_address env agent = Ok agent.

Lemma is_immunized_run (tr : list Web3.rpc) :
  LobSecRegistry.is_immunized self agent env tr =
  (Web3.ans_isImmunized env (List.length tr) agent,
   (tr ++ [Web3.eth_call self (Web3.isImmunized agent)])%list).
Proof.
  unfold LobSecRegistry.is_immunized, Web3.bind, Web3.local_, Web3.request.
  now rewrite checksum_idem.
Qed.

Lemma get_threat_level_run (tr : list Web3.rpc) :
  LobSecRegistry.get_threat_level self agent env tr =
  (Web3.ans_getThreatLevel env (List.length tr) agent,
   (tr ++ [Web3.eth_call self (Web3.getThreatLevel agent)])%list).
Proof.
  unfold LobSecRegistry.get_threat_level, Web3.bind, Web3.local_, Web3.request.
  now rewrite checksum_idem.
Qed.

(** What a successful call of [get_agent_status] has read: the immunization
    flag at the first request, the threat level at the second (returned) and
    again at the third (compared with 50), and the flag once more at the
    fourth when that comparison holds. *)
Lemma get_agent_status_reads (tr tr' : list Web3.rpc)
      (st : LobSecRegistry.AgentStatus) :
  LobSecRegistry.get_agent_status self agent_address env tr = (Ok st, tr') ->
  let n := List.length tr in
  exists t2 : Z,
    Web3.ans_isImmunized env n agent = Ok (LobSecRegistry.immunized st) /\
    Web3.ans_getThreatLevel env (n + 1) agent
      = Ok (LobSecRegistry.threat_level st) /\
    Web3.ans_getThreatLevel env (n + 2) agent = Ok t2 /\
    (if t2 <? 50
     then Web3.ans_isImmunized env (n + 3) agent = Ok (LobSecRegistry.safe st)
     else LobSecRegistry.safe st = false) /\
    threat_queries tr' = (threat_queries tr + 2)%nat.
Proof.
  intros H n.
  unfold LobSecRegistry.get_agent_status in H.
  unfold Web3.bind at 1 in H. unfold Web3.local_ at 1 in H.
  rewrite checksum_arg in H.
  unfold Web3.bind at 1 in H. rewrite is_immunized_run in H.
  destruct (Web3.ans_isImmunized env (List.length tr) agent) as [i0 |] eqn:E0;
    [| discriminate].
  unfold Web3.bind at 1 in H. rewrite get_threat_level_run in H.
  rewrite length_app in H. simpl List.length in H.
  destruct (Web3.ans_getThreatLevel env (List.length tr + 1) agent)
    as [t1 |] eqn:E1; [| discriminate].
  unfold Web3.bind at 1 in H. rewrite get_threat_level_run in H.
  rewrite !length_app in H. simpl List.length in H.
  replace (List.length tr + 1 + 1)%nat with (n + 2)%nat in H by (subst n; lia).
  destruct (Web3.ans_getThreatLevel env (n + 2) agent) as [t2 |] eqn:E2;
    [| discriminate].
  exists t2. unfold Web3.bind in H.
  destruct (t2 <? 50) eqn:Et.
  - rewrite is_immunized_run in H. rewrite !length_app in H.
    simpl List.length in H.
    replace (List.length tr + 1 + 1 + 1)%nat with (n + 3)%nat in H
      by (subst n; lia).
    destruct (Web3.ans_isImmunized env (n + 3) agent) as [i3 |] eqn:E3;
      [| discriminate].
    unfold Web3.ret in H. inversion H; subst st tr'; simpl.
    repeat split; try reflexivity; try assumption.
    rewrite !threat_queries_app. simpl. lia.
  - unfold Web3.ret in H. inversion H; subst st tr'; simpl.
    repeat split; try reflexivity; try assumption.
    rewrite !threat_queries_app. simpl. lia.
Qed.

End RegistryStatus.

(** C7. For stable on-chain readings [(imm, level)] of an agent,
    [get_agent_status] returns them and reports [safe] exactly when
    [level < 50] and [imm] holds; in particular [safe] is false at
    [level = 50]. *)
Theorem get_agent_status_safe_iff
        (env : Web3.Env) (self : Web3.address) (agent_address : string)
        (agent : Web3.address) (imm : bool) (level : Z)
        (tr : list Web3.rpc) :
  Web3.to_checksum_address env agent_address = Ok agent ->
  Web3.to_checksum_address env agent = Ok agent ->
  (forall tm, Web3.ans_isImmunized env tm agent = Ok imm) ->
  (forall tm, Web3.ans_getThreatLevel env tm agent = Ok level) ->
  exists st tr',
    LobSecRegistry.get_agent_status self agent_address env tr = (Ok st, tr') /\
    LobSecRegistry.immunized st = imm /\
    LobSecRegistry.threat_level st = level /\
    (LobSecRegistry.safe st = true <-> level < 50 /\ imm = true).
Proof.
  intros Hc Hi Himm Hlvl.
  unfold LobSecRegistry.get_agent_status.
  unfold Web3.bind at 1. unfold Web3.local_ at 1. rewrite Hc.
  unfold Web3.bind at 1. rewrite (is_immunized_run env self agent Hi), Himm.
  unfold Web3.bind at 1. rewrite (get_threat_level_run env self agent Hi), Hlvl.
  unfold Web3.bind at 1. rewrite (get_threat_level_run env self agent Hi), Hlvl.
  unfold Web3.bind.
  destruct (level <? 50) eqn:Et.
  - rewrite (is_immunized_run env self agent Hi), Himm. unfold Web3.ret.
    eexists; eexists; split; [reflexivity |]. simpl.
    apply Z.ltb_lt in Et. repeat split; intros; try tauto.
  - unfold Web3.ret. eexists; eexists; split; [reflexivity |]. simpl.
    apply Z.ltb_ge in Et. repeat split; intros; try discriminate.
    destruct H; lia.
Qed.

Lemma get_agent_status_safe_iff_witness :
  exists st tr',
    LobSecRegistry.get_agent_status
      LOBSEC_REGISTRY Scenario.addr (Scenario.calm 0 (Ok tt)) [] = (Ok st, tr') /\
    LobSecRegistry.immunized st = true /\
    LobSecRegistry.threat_level st = 10 /\
    (LobSecRegistry.safe st = true <-> 10 < 50 /\ true = true).
Proof.
  apply (get_agent_status_safe_iff
           (Scenario.calm 0 (Ok tt)) LOBSEC_REGISTRY Scenario.addr Scenario.addr
           true 10 []); intros; reflexivity.
Defined.

(** C4, as the code has it. A successful [get_agent_status] queries the
    threat level twice and the immunization flag up to twice. The returned
    [immunized] and [threat_level] are the answers to the first and second
    request of the call. [safe] comes from the later reads only: it is
    false when the second threat reading, the answer to the third request,
    is 50 or more, and otherwise it is the answer to a further
    [isImmunized] read made as the fourth request. So [threat_level] and
    [safe] may stem from different ledger states. *)
Theorem get_agent_status_queries_twice
        (env : Web3.Env) (self : Web3.address) (agent_address : string)
        (agent : Web3.address) (tr tr' : list Web3.rpc)
        (st : LobSecRegistry.AgentStatus) :
  Web3.to_checksum_address env agent_address = Ok agent ->
  Web3.to_checksum_address env agent = Ok agent ->
  LobSecRegistry.get_agent_status self agent_address env tr = (Ok st, tr') ->
  exists again : Z,
    threat_queries tr' = (threat_queries tr + 2)%nat /\
    Web3.ans_isImmunized env (List.length tr) agent
      = Ok (LobSecRegistry.immunized st) /\
    Web3.ans_getThreatLevel env (List.length tr + 1) agent
      = Ok (LobSecRegistry.threat_level st) /\
    Web3.ans_getThreatLevel env (List.length tr + 2) agent = Ok again /\
    (again < 50 ->
     Web3.ans_isImmunized env (List.length tr + 3) agent
     = Ok (LobSecRegistry.safe st)) /\
    (50 <= again -> LobSecRegistry.safe st = false).
Proof.
  intros Hc Hi H.
  destruct (get_agent_status_reads env self agent_address agent Hc Hi tr tr' st H)
    as (t2 & H0 & H1 & H2 & Hs & Hq).
  exists t2. repeat split; try assumption.
  - intros Hlt. apply Z.ltb_lt in Hlt. now rewrite Hlt in Hs.
  - intros Hge. apply Z.ltb_ge in Hge. now rewrite Hge in Hs.
Qed.

Lemma get_agent_status_queries_twice_witness :
  exists st tr' again,
    LobSecRegistry.get_agent_status LOBSEC_REGISTRY Scenario.addr
                                    Scenario.rising [] = (Ok st, tr') /\
    threat_queries tr' = 2%nat /\
    Web3.ans_isImmunized Scenario.rising 0 Scenario.addr
      = Ok (LobSecRegistry.immunized st) /\
    Web3.ans_getThreatLevel Scenario.rising 1 Scenario.addr
      = Ok (LobSecRegistry.threat_level st) /\
    Web3.ans_getThreatLevel Scenario.rising 2 Scenario.addr = Ok again /\
    (again < 50 ->
     Web3.ans_isImmunized Scenario.rising 3 Scenario.addr
     = Ok (LobSecRegistry.safe st)) /\
    (50 <= again -> LobSecRegistry.safe st = false).
Proof.
  eexists; eexists.
  assert (H : LobSecRegistry.get_agent_status LOBSEC_REGISTRY Scenario.addr
                Scenario.rising [] = (Ok _, _)) by (vm_compute; reflexivity).
  destruct (get_agent_status_queries_twice
              Scenario.rising LOBSEC_REGISTRY Scenario.addr Scenario.addr [] _ _
              eq_refl eq_refl H) as (again & Hq & H0 & H1 & H2 & H3 & H4).
  exists again. repeat split; assumption.
Defined.

(** C4, as stated, fails: on a ledger whose threat level rises from 10 to
    60 between the two reads, one call makes two threat-level queries and
    returns [threat_level = 10] with [immunized = true] and yet
    [safe = false]. *)
Lemma get_agent_status_single_read_counterexample :
  exists st tr',
    LobSecRegistry.get_agent_status LOBSEC_REGISTRY Scenario.addr
                                    Scenario.rising [] = (Ok st, tr') /\
    threat_queries tr' <> 1%nat /\
    LobSecRegistry.safe st
      <> ((LobSecRegistry.threat_level st <? 50)
          && LobSecRegistry.immunized st).
Proof.
  eexists; eexists. split; [vm_compute; reflexivity |].
  split; vm_compute; discriminate.
Qed.

(** ** Coverage check *)

(** C6. [is_covered] answers from one reading of the agent's coverage
    information: false whenever [can_request_coverage] is false; otherwise,
    with an amount, true exactly when [available_coverage_usd >= amount],
    and without one, true exactly when [available_coverage_usd > 0]. *)
Theorem is_covered_spec
        (env : Web3.Env) (self : InsurancePool.t) (agent_address : string)
        (agent : Web3.address) (amount : option PyFloat.float)
        (tr tr' : list Web3.rpc) (info : InsurancePool.CoverageInfo) :
  Web3.to_checksum_address env agent_address = Ok agent ->
  InsurancePool.get_agent_coverage_info self agent env tr = (Ok info, tr') ->
  exists b : bool,
    InsurancePool.is_covered self agent_address amount env tr = (Ok b, tr') /\
    (InsurancePool.can_request_coverage info = false -> b = false) /\
    (InsurancePool.can_request_coverage info = true ->
     match amount with
     | Some a =>
         b = true <->
         PyFloat.leb a (InsurancePool.available_coverage_usd info) = true
     | None =>
         b = true <->
         PyFloat.ltb (S754_zero false)
                     (InsurancePool.available_coverage_usd info) = true
     end).
Proof.
  intros Hc Hinfo.
  unfold InsurancePool.is_covered.
  unfold Web3.bind at 1. unfold Web3.local_ at 1. rewrite Hc.
  rewrite (bind_ok _ _ _ _ _ _ Hinfo).
  destruct (InsurancePool.can_request_coverage info) eqn:Hcan; simpl.
  - destruct amount as [a |]; unfold Web3.ret; eexists;
      (split; [reflexivity |]); (split; [discriminate |]);
      intros _; reflexivity.
  - unfold Web3.ret. exists false. split; [reflexivity |].
    split; [reflexivity | discriminate].
Qed.

Lemma is_covered_spec_witness :
  exists info tr' b,
    InsurancePool.get_agent_coverage_info
      Scenario.pool Scenario.addr (Scenario.calm 0 (Ok tt)) []
      = (Ok info, tr') /\
    InsurancePool.is_covered
      Scenario.pool Scenario.addr (Some Scenario.f_100)
      (Scenario.calm 0 (Ok tt)) [] = (Ok b, tr') /\
    b = true.
Proof.
  eexists; eexists.
  assert (H : InsurancePool.get_agent_coverage_info
                Scenario.pool Scenario.addr (Scenario.calm 0 (Ok tt)) []
              = (Ok _, _)) by (vm_compute; reflexivity).
  destruct (is_covered_spec (Scenario.calm 0 (Ok tt)) Scenario.pool
              Scenario.addr Scenario.addr (Some Scenario.f_100) [] _ _
              eq_refl H) as (b & Hrun & _ & Hyes).
  exists b. split; [exact H |]. split; [exact Hrun |].
  apply Hyes; vm_compute; reflexivity.
Defined.

(** ** Minimum stake *)

Lemma eqb_hundred (usd : PyFloat.float) :
  PyFloat.eqb usd (PyFloat.of_int 100) = true -> usd = Scenario.f_100.
Proof.
  replace (PyFloat.of_int 100) with Scenario.f_100 by (vm_compute; reflexivity).
  unfold PyFloat.eqb, SFeqb, Scenario.f_100.
  destruct usd as [s | s | | s m e]; cbv beta iota delta [SFcompare];
    try (destruct s; discriminate); try discriminate.
  destruct s; [discriminate |].
  destruct (e ?= -46) eqn:He; try discriminate.
  apply Z.compare_eq in He. subst e.
  destruct (Pos.compare_cont Eq m 7036874417766400) eqn:Hm; try discriminate.
  apply Pos.compare_eq in Hm. now subst m.
Qed.

(** C5. [stake] raises the ValueError of the minimum-stake check for every
    [usd < 100], before any request is made; for [usd == 100] it passes the
    check and is the staking flow of the pool client, started on 100000000
    ledger units. *)
Theorem stake_minimum (env : Web3.Env) (self : Agent.t) (tr : list Web3.rpc)
        (usd : PyFloat.float) :
  (PyFloat.ltb usd (PyFloat.of_int 100) = true ->
   Agent.stake self usd env tr
   = (Raise (ValueError "Minimum stake is $100 USDC"), tr)) /\
  (PyFloat.eqb usd (PyFloat.of_int 100) = true ->
   Agent.stake self usd env tr
   = InsurancePool.stake_for_insurance
       (Agent.insurance self) usd (Agent._private_key self) env tr /\
   InsurancePool._to_usdc_units usd = Ok 100000000).
Proof.
  split.
  - intros H. unfold Agent.stake. rewrite H. reflexivity.
  - intros H. apply eqb_hundred in H. subst usd. split.
    + unfold Agent.stake.
      replace (PyFloat.ltb Scenario.f_100 (PyFloat.of_int 100)) with false
        by (vm_compute; reflexivity).
      reflexivity.
    + vm_compute. reflexivity.
Qed.

Lemma stake_minimum_witness :
  Agent.stake Scenario.agent Scenario.f_99_5 (Scenario.calm 0 (Ok tt)) []
  = (Raise (ValueError "Minimum stake is $100 USDC"), []) /\
  writes (snd (Agent.stake Scenario.agent Scenario.f_100
                           (Scenario.calm 0 (Ok tt)) []))
  = [Web3.approve AGENT_STAKING 100000000; Web3.stakeAsAgent 100000000].
Proof.
  split.
  - apply (stake_minimum (Scenario.calm 0 (Ok tt)) Scenario.agent []
                         Scenario.f_99_5).
    vm_compute. reflexivity.
  - destruct (stake_minimum (Scenario.calm 0 (Ok tt)) Scenario.agent []
                            Scenario.f_100) as [_ H].
    destruct H as [H _]; [vm_compute; reflexivity |].
    rewrite H. vm_compute. reflexivity.
Defined.

(** ** Approve, wait, then create coverage *)

(** Case analysis on every answer a method body depends on, innermost
    first. *)
Ltac destruct_innermost H :=
  repeat match type of H with
         | context [match ?x with _ => _ end] =>
             lazymatch x with
             | context [match _ with _ => _ end] => fail
             | _ => destruct x eqn:?
             end
         end.

(** Times of requests are written [length tr + k]. *)
Ltac norm_lengths :=
  repeat (rewrite length_app in * ); simpl List.length in *;
  repeat (rewrite <- Nat.add_assoc in * ); simpl Nat.add in *.

(** C3. Whatever the endpoint answers, the writes submitted by
    [purchase_coverage] are a prefix of [approve; createCoverage], so the
    approval always precedes the creation; and when waiting for the receipt
    of the approval raises, the method raises the same exception and
    [createCoverage] is not submitted. *)
Theorem purchase_coverage_order
        (env : Web3.Env) (self : InsurancePool.t)
        (agent_address protocol_address : string) (amount : PyFloat.float)
        (duration_days : Z) (private_key : string) (risk_score : Z)
        (tr tr' : list Web3.rpc) (r : result Web3.tx_hash) :
  InsurancePool.purchase_coverage self agent_address protocol_address amount
    duration_days private_key risk_score env tr = (r, tr') ->
  exists evs : list Web3.rpc,
    tr' = (tr ++ evs)%list /\
    (writes evs = [] \/
     (exists premium,
        writes evs = [Web3.approve (InsurancePool.pool_address self) premium]) \/
     (exists premium agent protocol units,
        writes evs = [Web3.approve (InsurancePool.pool_address self) premium;
                      Web3.createCoverage agent protocol units
                        (duration_days * 24 * 60 * 60) risk_score])) /\
    (forall k h e,
       nth_error evs k = Some (Web3.wait_for_transaction_receipt h) ->
       Web3.ans_wait_for_transaction_receipt env (List.length tr + k) h
       = Raise e ->
       r = Raise e /\ existsb is_createCoverage (writes evs) = false).
Proof.
  unfold InsurancePool.purchase_coverage, Web3.transact, Web3.wait_receipt,
    Web3.bind, Web3.local_, Web3.lift, Web3.request.
  intros H.
  destruct_innermost H;
    inversion H; subst r tr'; clear H;
    repeat rewrite <- app_assoc; simpl app;
    (eexists; split;
     [first [reflexivity | symmetry; apply app_nil_r] |]);
    (split; [simpl; eauto 8 |]);
    intros k h ex Hk Hw;
    repeat (destruct k as [| k]; simpl in Hk; try discriminate);
    inversion Hk; subst; norm_lengths;
    first [congruence | split; [congruence | reflexivity]].
Qed.

Lemma purchase_coverage_order_witness :
  let env := Scenario.calm 10000 (Raise (RpcError 1)) in
  let run := InsurancePool.purchase_coverage
               Scenario.pool Scenario.addr Scenario.addr Scenario.f_1000 30
               "key" 1000 env [] in
  exists evs : list Web3.rpc,
    snd run = ([] ++ evs)%list /\
    (writes evs = [] \/
     (exists premium,
        writes evs = [Web3.approve AGENT_INSURANCE_POOL premium]) \/
     (exists premium agent protocol units,
        writes evs = [Web3.approve AGENT_INSURANCE_POOL premium;
                      Web3.createCoverage agent protocol units
                        (30 * 24 * 60 * 60) 1000])) /\
    (forall k h e,
       nth_error evs k = Some (Web3.wait_for_transaction_receipt h) ->
       Web3.ans_wait_for_transaction_receipt env (List.length (@nil Web3.rpc) + k) h
       = Raise e ->
       fst run = Raise e /\ existsb is_createCoverage (writes evs) = false).
Proof.
  intros env run.
  apply (purchase_coverage_order
           env Scenario.pool Scenario.addr Scenario.addr Scenario.f_1000 30
           "key" 1000 [] (snd run) (fst run)).
  apply surjective_pairing.
Defined.

(** The same run, evaluated: the receipt wait fails, the method raises and
    the only write submitted is the approval of the premium. *)
Example purchase_coverage_aborts :
  let run := InsurancePool.purchase_coverage
               Scenario.pool Scenario.addr Scenario.addr Scenario.f_1000 30
               "key" 1000 (Scenario.calm 10000 (Raise (RpcError 1))) [] in
  fst run = Raise (RpcError 1) /\
  writes (snd run) = [Web3.approve AGENT_INSURANCE_POOL 10000].
Proof. vm_compute. split; reflexivity. Qed.

(** ** Decimal digits *)

Lemma pow10_pos (k : Z) : 0 <= k -> 0 < 10 ^ k.
Proof. intros H. apply Z.pow_pos_nonneg; lia. Qed.

Lemma pow10_succ (k : Z) : 0 <= k -> 10 ^ (k + 1) = 10 * 10 ^ k.
Proof. intros H. rewrite Z.pow_add_r by lia. rewrite Z.pow_1_r. lia. Qed.

Lemma ndigits_aux_spec (fuel : nat) :
  forall c : Z,
    0 < c -> Z.log2 c <= Z.of_nat fuel ->
    1 <= PyDecimal.ndigits_aux fuel c /\
    10 ^ (PyDecimal.ndigits_aux fuel c - 1) <= c
      < 10 ^ (PyDecimal.ndigits_aux fuel c).
Proof.
  induction fuel as [| fuel IH]; intros c Hc Hlog.
  - simpl. assert (c < 2).
    { destruct (Z.lt_ge_cases c 2) as [? | Hge]; [assumption |].
      apply Z.log2_le_mono in Hge. change (Z.log2 2) with 1 in Hge. lia. }
    change (10 ^ (1 - 1)) with 1. change (10 ^ 1) with 10. lia.
  - cbn [PyDecimal.ndigits_aux].
    destruct (c <? 10) eqn:E.
    + apply Z.ltb_lt in E.
      change (10 ^ (1 - 1)) with 1. change (10 ^ 1) with 10. lia.
    + apply Z.ltb_ge in E.
      assert (Hq : 0 < c / 10) by (apply Z.div_str_pos; lia).
      assert (Hlq : Z.log2 (c / 10) <= Z.of_nat fuel).
      { assert (c / 10 <= c / 2).
        { apply Z.div_le_compat_l; lia. }
        assert (Z.log2 (c / 2) = Z.log2 c - 1).
        { rewrite <- Z.div2_div, Z.div2_spec, Z.log2_shiftr by lia.
          rewrite Z.max_r; [reflexivity |].
          assert (1 <= Z.log2 c).
          { change 1 with (Z.log2 2). apply Z.log2_le_mono. lia. }
          lia. }
        assert (Z.log2 (c / 10) <= Z.log2 (c / 2))
          by (apply Z.log2_le_mono; assumption).
        lia. }
      destruct (IH (c / 10) Hq Hlq) as (H1 & H2 & H3).
      set (k := PyDecimal.ndigits_aux fuel (c / 10)) in *.
      replace (1 + k - 1) with ((k - 1) + 1) by lia.
      replace (1 + k) with (k + 1) by lia.
      rewrite !pow10_succ by lia.
      pose proof (Z.div_mod c 10 ltac:(lia)) as Hdm.
      pose proof (Z.mod_pos_bound c 10 ltac:(lia)) as Hm.
      split; [lia |]. split; lia.
Qed.

Lemma ndigits_spec (c : Z) :
  0 < c ->
  1 <= PyDecimal.ndigits c /\
  10 ^ (PyDecimal.ndigits c - 1) <= c < 10 ^ (PyDecimal.ndigits c).
Proof.
  intros Hc. unfold PyDecimal.ndigits. apply ndigits_aux_spec; [assumption |].
  rewrite Z2Nat.id; [lia | apply Z.log2_nonneg].
Qed.

Lemma ndigits_unique (c k : Z) :
  0 < c -> 1 <= k -> 10 ^ (k - 1) <= c < 10 ^ k -> PyDecimal.ndigits c = k.
Proof.
  intros Hc Hk [Hlo Hhi].
  destruct (ndigits_spec c Hc) as (H1 & H2 & H3).
  set (n := PyDecimal.ndigits c) in *.
  assert (n - 1 < k).
  { apply (Z.pow_lt_mono_r_iff 10); lia. }
  assert (k - 1 < n).
  { apply (Z.pow_lt_mono_r_iff 10); lia. }
  lia.
Qed.

Lemma ndigits_le (c k : Z) :
  0 < c -> 0 <= k -> c < 10 ^ k -> PyDecimal.ndigits c <= k.
Proof.
  intros Hc Hk Hhi.
  destruct (ndigits_spec c Hc) as (H1 & H2 & H3).
  set (n := PyDecimal.ndigits c) in *.
  assert (n - 1 < k); [| lia].
  apply (Z.pow_lt_mono_r_iff 10); lia.
Qed.

Lemma ndigits_mul_pow10 (c j : Z) :
  0 < c -> 0 <= j ->
  PyDecimal.ndigits (c * 10 ^ j) = PyDecimal.ndigits c + j.
Proof.
  intros Hc Hj.
  destruct (ndigits_spec c Hc) as (H1 & H2 & H3).
  pose proof (pow10_pos j Hj) as Hp.
  apply ndigits_unique; [nia | lia |].
  replace (PyDecimal.ndigits c + j - 1) with ((PyDecimal.ndigits c - 1) + j)
    by lia.
  rewrite !Z.pow_add_r by lia.
  split; nia.
Qed.

Lemma ndigits_pow10 (j : Z) : 0 <= j -> PyDecimal.ndigits (10 ^ j) = j + 1.
Proof.
  intros Hj. replace (10 ^ j) with (1 * 10 ^ j) by lia.
  rewrite ndigits_mul_pow10 by lia.
  change (PyDecimal.ndigits 1) with 1. lia.
Qed.

(** ** Decimal values as rationals *)

Lemma round_Q_compat (s : bool) (q1 q2 : Q) :
  q1 == q2 -> PyFloat.round_Q s q1 = PyFloat.round_Q s q2.
Proof.
  intros H. unfold PyFloat.round_Q. now rewrite (Qred_complete q1 q2 H).
Qed.

Lemma decimal_value_scale (c e j : Z) :
  0 <= j ->
  PyFloat.decimal_value (c * 10 ^ j) e == PyFloat.decimal_value c (e + j).
Proof.
  intros Hj. unfold PyFloat.decimal_value, Qeq.
  destruct (0 <=? e) eqn:E1; destruct (0 <=? e + j) eqn:E2;
    try apply Z.leb_le in E1; try apply Z.leb_le in E2;
    try apply Z.leb_gt in E1; try apply Z.leb_gt in E2;
    cbn [Qnum Qden inject_Z]; try lia.
  - rewrite Z.pow_add_r by lia. lia.
  - rewrite Z2Pos.id by (apply pow10_pos; lia).
    replace j with ((e + j) + - e) at 1 by lia.
    rewrite Z.pow_add_r by lia. lia.
  - rewrite !Z2Pos.id by (apply pow10_pos; lia).
    replace (- e) with (j + - (e + j)) by lia.
    rewrite Z.pow_add_r by lia. lia.
Qed.

Lemma decimal_value_eq (c1 e1 c2 e2 j1 j2 : Z) :
  0 <= j1 -> 0 <= j2 -> e1 - j1 = e2 - j2 ->
  c1 * 10 ^ j1 = c2 * 10 ^ j2 ->
  PyFloat.decimal_value c1 e1 == PyFloat.decimal_value c2 e2.
Proof.
  intros H1 H2 He Hc.
  apply Qeq_trans with (PyFloat.decimal_value (c1 * 10 ^ j1) (e1 - j1)).
  - apply Qeq_sym. replace e1 with ((e1 - j1) + j1) at 2 by lia.
    now apply decimal_value_scale.
  - rewrite Hc, He. replace e2 with ((e2 - j2) + j2) at 2 by lia.
    now apply decimal_value_scale.
Qed.

(** ** Rounding to the context precision *)

Lemma div_eucl_eq (a b : Z) : Z.div_eucl a b = (a / b, a mod b).
Proof. unfold Z.div, Z.modulo. now destruct (Z.div_eucl a b). Qed.

(** A coefficient that fits the precision is left alone. *)
Lemma fix_small (s : bool) (c e : Z) :
  0 < c -> PyDecimal.ndigits c <= 28 ->
  PyDecimal.Etiny <= e -> e <= 900000 ->
  PyDecimal.fix_ (PyDecimal.Finite s c e) = Ok (PyDecimal.Finite s c e).
Proof.
  intros Hc Hn He1 He2. unfold PyDecimal.fix_.
  unfold PyDecimal.Etop, PyDecimal.Etiny, PyDecimal.Emax, PyDecimal.Emin,
    PyDecimal.ctx_prec in *.
  replace (c =? 0) with false by (symmetry; apply Z.eqb_neq; lia).
  replace (999999 - 28 + 1 <? PyDecimal.ndigits c + e - 28) with false
    by (symmetry; apply Z.ltb_ge; lia).
  replace (e <? Z.max (PyDecimal.ndigits c + e - 28) (-999999 - 28 + 1))
    with false by (symmetry; apply Z.ltb_ge; lia).
  reflexivity.
Qed.

(** Digits beyond the precision that are all zero are dropped exactly. *)
Lemma fix_exact (s : bool) (c t e : Z) :
  0 < c -> 0 <= t -> PyDecimal.ndigits c <= 28 ->
  28 < PyDecimal.ndigits c + t ->
  PyDecimal.Etiny <= e -> e <= 900000 -> t <= 1000 ->
  PyDecimal.fix_ (PyDecimal.Finite s (c * 10 ^ t) e)
  = Ok (PyDecimal.Finite s (c * 10 ^ (28 - PyDecimal.ndigits c))
                         (e + PyDecimal.ndigits c + t - 28)).
Proof.
  intros Hc Ht Hn Hbig He1 He2 Ht2.
  pose proof (pow10_pos t Ht) as Hp.
  destruct (ndigits_spec c Hc) as (Hn1 & _ & _).
  unfold PyDecimal.fix_.
  rewrite (ndigits_mul_pow10 c t Hc Ht).
  set (n := PyDecimal.ndigits c) in *.
  unfold PyDecimal.Etop, PyDecimal.Etiny, PyDecimal.Emax, PyDecimal.Emin,
    PyDecimal.ctx_prec in *.
  replace (c * 10 ^ t =? 0) with false by (symmetry; apply Z.eqb_neq; nia).
  replace (999999 - 28 + 1 <? n + t + e - 28) with false
    by (symmetry; apply Z.ltb_ge; lia).
  rewrite Z.max_l by lia.
  replace (e <? n + t + e - 28) with true by (symmetry; apply Z.ltb_lt; lia).
  replace (n + t + e - (n + t + e - 28) <? 0) with false
    by (symmetry; apply Z.ltb_ge; lia).
  unfold PyDecimal.round_half_even. rewrite div_eucl_eq.
  replace (n + t + e - 28 - e) with (n + t - 28) by lia.
  assert (Hsplit : c * 10 ^ t = c * 10 ^ (28 - n) * 10 ^ (n + t - 28)).
  { rewrite <- Z.mul_assoc, <- Z.pow_add_r by lia. f_equal. f_equal. lia. }
  pose proof (pow10_pos (n + t - 28) ltac:(lia)) as Hd.
  rewrite Hsplit, Z.div_mul, Z.mod_mul by lia.
  replace (2 * 0 ?= 10 ^ (n + t - 28)) with Lt
    by (symmetry; apply Z.compare_lt_iff; lia).
  replace (999999 - 28 + 1 <? n + t + e - 28) with false
    by (symmetry; apply Z.ltb_ge; lia).
  f_equal. f_equal. lia.
Qed.

(** Within the exponent range [_fix] never raises. *)
Lemma fix_total (s : bool) (c e : Z) :
  0 < c -> PyDecimal.Etiny <= e ->
  PyDecimal.ndigits c + e - 28 < PyDecimal.Etop ->
  exists c' e', PyDecimal.fix_ (PyDecimal.Finite s c e)
                = Ok (PyDecimal.Finite s c' e').
Proof.
  intros Hc He1 He2. unfold PyDecimal.fix_.
  set (n := PyDecimal.ndigits c) in *.
  unfold PyDecimal.Etop, PyDecimal.Etiny, PyDecimal.Emax, PyDecimal.Emin,
    PyDecimal.ctx_prec in *.
  replace (c =? 0) with false by (symmetry; apply Z.eqb_neq; lia).
  replace (999999 - 28 + 1 <? n + e - 28) with false
    by (symmetry; apply Z.ltb_ge; lia).
  destruct (e <? Z.max (n + e - 28) (-999999 - 28 + 1)) eqn:E;
    [| eexists; eexists; reflexivity].
  apply Z.ltb_lt in E.
  rewrite Z.max_l in * by lia.
  replace (n + e - (n + e - 28) <? 0) with false
    by (symmetry; apply Z.ltb_ge; lia).
  destruct (PyDecimal.round_half_even c (n + e - 28 - e)) as [k up].
  destruct up.
  - destruct (28 <? PyDecimal.ndigits (k + 1)).
    + replace (999999 - 28 + 1 <? n + e - 28 + 1) with false
        by (symmetry; apply Z.ltb_ge; lia).
      eexists; eexists; reflexivity.
    + replace (999999 - 28 + 1 <? n + e - 28) with false
        by (symmetry; apply Z.ltb_ge; lia).
      eexists; eexists; reflexivity.
  - replace (999999 - 28 + 1 <? n + e - 28) with false
      by (symmetry; apply Z.ltb_ge; lia).
    eexists; eexists; reflexivity.
Qed.

Lemma strip_zeros_spec (fuel : nat) :
  forall coeff exp ideal : Z,
    0 < coeff ->
    exists j : Z,
      0 <= j /\
      coeff = fst (PyDecimal.strip_zeros fuel coeff exp ideal) * 10 ^ j /\
      snd (PyDecimal.strip_zeros fuel coeff exp ideal) = exp + j /\
      0 < fst (PyDecimal.strip_zeros fuel coeff exp ideal) /\
      (ideal <= exp -> j = 0) /\
      (exp <= ideal ->
       snd (PyDecimal.strip_zeros fuel coeff exp ideal) <= ideal).
Proof.
  induction fuel as [| fuel IH]; intros coeff exp ideal Hc.
  - exists 0. simpl. repeat split; lia.
  - cbn [PyDecimal.strip_zeros].
    destruct ((exp <? ideal) && (coeff mod 10 =? 0)) eqn:E.
    + apply andb_true_iff in E. destruct E as [E1 E2].
      apply Z.ltb_lt in E1. apply Z.eqb_eq in E2.
      pose proof (Z.div_mod coeff 10 ltac:(lia)) as Hdm.
      assert (Hq : 0 < coeff / 10) by lia.
      destruct (IH (coeff / 10) (exp + 1) ideal Hq)
        as (j & Hj & H1 & H2 & H3 & H4 & H5).
      exists (j + 1). rewrite pow10_succ by lia.
      repeat split; try lia.
    + exists 0. cbn [fst snd]. rewrite Z.pow_0_r.
      repeat split; lia.
Qed.

(** ** Dividing by [10 ** 6] *)

(** A coefficient with at most 28 significant digits, followed by any
    number of zeros, is divided by a million without loss. *)
Lemma div_million_exact (s : bool) (c k : Z) :
  0 < c -> PyDecimal.ndigits c <= 28 -> 0 <= k <= 900000 ->
  exists c' e',
    PyDecimal.div (PyDecimal.Finite s (c * 10 ^ k) 0)
                  (PyDecimal.Finite false 1000000 0)
    = Ok (PyDecimal.Finite s c' e') /\
    PyFloat.decimal_value c' e' == PyFloat.decimal_value c (k - 6).
Proof.
  intros Hc Hn Hk.
  pose proof (pow10_pos k ltac:(lia)) as Hpk.
  destruct (ndigits_spec c Hc) as (Hn1 & _ & _).
  unfold PyDecimal.div. rewrite xorb_false_r.
  change (1000000 =? 0) with false. cbv iota.
  replace (c * 10 ^ k =? 0) with false by (symmetry; apply Z.eqb_neq; nia).
  change (PyDecimal.ndigits 1000000) with 7.
  rewrite (ndigits_mul_pow10 c k Hc) by lia.
  set (n := PyDecimal.ndigits c) in *.
  unfold PyDecimal.ctx_prec.
  set (shift := 7 - (n + k) + 28 + 1).
  set (z := 30 - n).
  assert (Hz : 2 <= z) by (subst z; lia).
  pose proof (pow10_pos z ltac:(lia)) as Hpz.
  assert (Hquot :
            (if 0 <=? shift
             then Z.div_eucl (c * 10 ^ k * 10 ^ shift) 1000000
             else Z.div_eucl (c * 10 ^ k) (1000000 * 10 ^ (- shift)))
            = (c * 10 ^ z, 0)).
  { destruct (0 <=? shift) eqn:Es.
    - apply Z.leb_le in Es. rewrite div_eucl_eq.
      assert (Heq : c * 10 ^ k * 10 ^ shift = c * 10 ^ z * 1000000).
      { change 1000000 with (10 ^ 6).
        rewrite <- !Z.mul_assoc, <- !Z.pow_add_r by lia.
        f_equal. f_equal. subst shift z. lia. }
      rewrite Heq, Z.div_mul, Z.mod_mul by lia. reflexivity.
    - apply Z.leb_gt in Es. rewrite div_eucl_eq.
      pose proof (pow10_pos (- shift) ltac:(lia)) as Hps.
      assert (Heq : c * 10 ^ k = c * 10 ^ z * (1000000 * 10 ^ (- shift))).
      { change 1000000 with (10 ^ 6).
        rewrite <- !Z.mul_assoc, <- !Z.pow_add_r by lia.
        f_equal. f_equal. subst shift z. lia. }
      rewrite Heq, Z.div_mul, Z.mod_mul by lia. reflexivity. }
  rewrite Hquot. change (0 =? 0) with true. cbv iota.
  assert (Hc0 : 0 < c * 10 ^ z) by nia.
  assert (Hn0 : PyDecimal.ndigits (c * 10 ^ z) = 30).
  { rewrite ndigits_mul_pow10 by lia. subst z n. lia. }
  rewrite Hn0.
  destruct (strip_zeros_spec (Z.to_nat 30) (c * 10 ^ z) (0 - 0 - shift) (0 - 0)
                             Hc0)
    as (j & Hj & H1 & H2 & H3 & H4 & H5).
  destruct (PyDecimal.strip_zeros (Z.to_nat 30) (c * 10 ^ z) (0 - 0 - shift)
                                  (0 - 0)) as [c1 e1].
  cbn [fst snd] in H1, H2, H3, H4, H5.
  pose proof (pow10_pos j Hj) as Hpj.
  assert (Hn1' : PyDecimal.ndigits c1 + j = 30).
  { rewrite <- (ndigits_mul_pow10 c1 j H3 Hj), <- H1. exact Hn0. }
  assert (He1 : - 35 <= e1 <= 900000) by (subst shift; lia).
  destruct (Z.le_gt_cases (PyDecimal.ndigits c1) 28) as [Hs | Hb].
  - exists c1, e1. split.
    + apply fix_small; unfold PyDecimal.Etiny, PyDecimal.Emin,
        PyDecimal.ctx_prec; lia.
    + apply (decimal_value_eq c1 e1 c (k - 6) j z); subst shift z; lia.
  - assert (Hjz : j <= z) by lia.
    assert (Hc1 : c1 = c * 10 ^ (z - j)).
    { apply (Z.mul_reg_r _ _ (10 ^ j)); [lia |].
      rewrite <- H1, <- Z.mul_assoc, <- Z.pow_add_r by lia.
      f_equal. f_equal. lia. }
    rewrite Hc1.
    exists (c * 10 ^ (28 - n)), (e1 + n + (z - j) - 28). split.
    + apply fix_exact; unfold PyDecimal.Etiny, PyDecimal.Emin,
        PyDecimal.ctx_prec; subst z; fold n; lia.
    + apply (decimal_value_eq _ _ c (k - 6) 0 (28 - n)); subst shift z; lia.
Qed.

(** Any coefficient of at most 1000005 digits is divided by a million
    without an exception. *)
Lemma div_million_total (s : bool) (c : Z) :
  0 < c -> PyDecimal.ndigits c <= 1000005 ->
  exists c' e',
    PyDecimal.div (PyDecimal.Finite s c 0) (PyDecimal.Finite false 1000000 0)
    = Ok (PyDecimal.Finite s c' e').
Proof.
  intros Hc Hn.
  destruct (ndigits_spec c Hc) as (Hn1 & Hlo & Hhi).
  unfold PyDecimal.div. rewrite xorb_false_r.
  change (1000000 =? 0) with false. cbv iota.
  replace (c =? 0) with false by (symmetry; apply Z.eqb_neq; lia).
  change (PyDecimal.ndigits 1000000) with 7.
  set (n := PyDecimal.ndigits c) in *.
  unfold PyDecimal.ctx_prec.
  set (shift := 7 - n + 28 + 1).
  assert (Hquot :
            exists coeff r,
              (if 0 <=? shift
               then Z.div_eucl (c * 10 ^ shift) 1000000
               else Z.div_eucl c (1000000 * 10 ^ (- shift))) = (coeff, r) /\
              10 ^ 29 <= coeff < 10 ^ 30).
  { destruct (0 <=? shift) eqn:Es.
    - apply Z.leb_le in Es. rewrite div_eucl_eq.
      eexists; eexists; split; [reflexivity |].
      pose proof (pow10_pos shift Es) as Hps.
      assert (H36 : 10 ^ (n - 1) * 10 ^ shift = 10 ^ 35).
      { rewrite <- Z.pow_add_r by lia. f_equal. subst shift. lia. }
      assert (H36' : 10 ^ n * 10 ^ shift = 10 ^ 36).
      { rewrite <- Z.pow_add_r by lia. f_equal. subst shift. lia. }
      split.
      + apply Z.div_le_lower_bound; [lia |].
        change (1000000 * 10 ^ 29) with (10 ^ 35). rewrite <- H36. nia.
      + apply Z.div_lt_upper_bound; [lia |].
        change (1000000 * 10 ^ 30) with (10 ^ 36). rewrite <- H36'. nia.
    - apply Z.leb_gt in Es. rewrite div_eucl_eq.
      eexists; eexists; split; [reflexivity |].
      pose proof (pow10_pos (- shift) ltac:(lia)) as Hps.
      assert (H1 : 1000000 * 10 ^ (- shift) * 10 ^ 29 = 10 ^ (n - 1)).
      { change 1000000 with (10 ^ 6).
        rewrite <- !Z.pow_add_r by lia. f_equal. subst shift. lia. }
      assert (H2 : 1000000 * 10 ^ (- shift) * 10 ^ 30 = 10 ^ n).
      { change 1000000 with (10 ^ 6).
        rewrite <- !Z.pow_add_r by lia. f_equal. subst shift. lia. }
      split.
      + apply Z.div_le_lower_bound; [lia |]. rewrite H1. exact Hlo.
      + apply Z.div_lt_upper_bound; [lia |]. rewrite H2. exact Hhi. }
  destruct Hquot as (coeff & r & Hq & Hc29 & Hc30).
  rewrite Hq.
  assert (Hn30 : PyDecimal.ndigits coeff = 30).
  { apply ndigits_unique; [lia | lia |]. change (30 - 1) with 29. lia. }
  destruct (r =? 0).
  - rewrite Hn30.
    destruct (strip_zeros_spec (Z.to_nat 30) coeff (0 - 0 - shift) (0 - 0)
                               ltac:(lia))
      as (j & Hj & H1 & H2 & H3 & H4 & H5).
    destruct (PyDecimal.strip_zeros (Z.to_nat 30) coeff (0 - 0 - shift)
                                    (0 - 0)) as [c1 e1].
    cbn [fst snd] in H1, H2, H3, H4, H5.
    assert (Hd1 : PyDecimal.ndigits c1 + j = 30).
    { rewrite <- (ndigits_mul_pow10 c1 j H3 Hj), <- H1. exact Hn30. }
    apply fix_total; unfold PyDecimal.Etiny, PyDecimal.Etop, PyDecimal.Emax,
      PyDecimal.Emin, PyDecimal.ctx_prec; subst shift; lia.
  - set (coeff' := if coeff mod 5 =? 0 then coeff + 1 else coeff).
    assert (Hb : 10 ^ 29 <= coeff' < 10 ^ 30).
    { subst coeff'. destruct (coeff mod 5 =? 0) eqn:E5; [| lia].
      apply Z.eqb_eq in E5.
      change (10 ^ 30) with 1000000000000000000000000000000 in *.
      change (10 ^ 29) with 100000000000000000000000000000 in *.
      pose proof (Z.div_mod coeff 5 ltac:(lia)). lia. }
    assert (Hn30' : PyDecimal.ndigits coeff' = 30).
    { apply ndigits_unique; [lia | lia |]. change (30 - 1) with 29. lia. }
    apply fix_total; unfold PyDecimal.Etiny, PyDecimal.Etop, PyDecimal.Emax,
      PyDecimal.Emin, PyDecimal.ctx_prec; subst shift; lia.
Qed.

Lemma of_int_million :
  PyDecimal.of_int (10 ^ InsurancePool.USDC_DECIMALS)
  = PyDecimal.Finite false 1000000 0.
Proof. reflexivity. Qed.

Lemma of_int_nonzero (u : Z) :
  u <> 0 -> PyDecimal.of_int u = PyDecimal.Finite (u <? 0) (Z.abs u) 0.
Proof. reflexivity. Qed.

(** The conversion from ledger units never raises on integers of at most
    1000005 digits. *)
Lemma from_usdc_units_total (u : Z) :
  PyDecimal.ndigits (Z.abs u) <= 1000005 ->
  exists x, InsurancePool._from_usdc_units u = Ok x.
Proof.
  intros Hn. unfold InsurancePool._from_usdc_units.
  rewrite of_int_million.
  destruct (Z.eq_dec u 0) as [-> | Hu].
  - eexists. vm_compute. reflexivity.
  - unfold PyDecimal.of_int.
    destruct (div_million_total (u <? 0) (Z.abs u) ltac:(lia) Hn)
      as (c' & e' & Hdiv).
    rewrite Hdiv. eexists. reflexivity.
Qed.

(** On integers of at most 28 digits the result is the float nearest to
    the exact quotient. *)
Lemma from_usdc_units_exact (u : Z) :
  PyDecimal.ndigits (Z.abs u) <= 28 ->
  InsurancePool._from_usdc_units u
  = Ok (PyFloat.round_Q (u <? 0) (Z.abs u # 1000000)).
Proof.
  intros Hn. unfold InsurancePool._from_usdc_units.
  rewrite of_int_million.
  destruct (Z.eq_dec u 0) as [-> | Hu].
  - vm_compute. reflexivity.
  - unfold PyDecimal.of_int.
    destruct (div_million_exact (u <? 0) (Z.abs u) 0 ltac:(lia) Hn ltac:(lia))
      as (c' & e' & Hdiv & Hval).
    rewrite Z.pow_0_r, Z.mul_1_r in Hdiv. rewrite Hdiv.
    unfold rbind, PyDecimal.to_float. f_equal.
    apply round_Q_compat. rewrite Hval. reflexivity.
Qed.

(** Powers of ten from [10 ** 1000006] on overflow the decimal context. *)
Lemma from_usdc_units_pow10_overflow (n : Z) :
  1000006 <= n ->
  InsurancePool._from_usdc_units (10 ^ n) = Raise DecimalOverflow.
Proof.
  intros Hn.
  pose proof (pow10_pos n ltac:(lia)) as Hp.
  unfold InsurancePool._from_usdc_units. rewrite of_int_million.
  unfold PyDecimal.of_int.
  replace (10 ^ n <? 0) with false by (symmetry; apply Z.ltb_ge; lia).
  rewrite Z.abs_eq by lia.
  unfold PyDecimal.div. cbn [xorb].
  change (1000000 =? 0) with false. cbv iota.
  replace (10 ^ n =? 0) with false by (symmetry; apply Z.eqb_neq; lia).
  change (PyDecimal.ndigits 1000000) with 7.
  rewrite ndigits_pow10 by lia.
  unfold PyDecimal.ctx_prec.
  replace (0 <=? 7 - (n + 1) + 28 + 1) with false
    by (symmetry; apply Z.leb_gt; lia).
  rewrite div_eucl_eq.
  pose proof (pow10_pos (- (7 - (n + 1) + 28 + 1)) ltac:(lia)) as Hps.
  assert (Heq : 10 ^ n = 10 ^ 29 * (1000000 * 10 ^ (- (7 - (n + 1) + 28 + 1)))).
  { change 1000000 with (10 ^ 6).
    rewrite <- !Z.pow_add_r by lia. f_equal. lia. }
  rewrite Heq, Z.div_mul, Z.mod_mul by lia.
  change (0 =? 0) with true. cbv iota.
  destruct (strip_zeros_spec
              (Z.to_nat (PyDecimal.ndigits (10 ^ 29))) (10 ^ 29)
              (0 - 0 - (7 - (n + 1) + 28 + 1)) (0 - 0) ltac:(lia))
    as (j & Hj & H1 & H2 & H3 & H4 & H5).
  destruct (PyDecimal.strip_zeros
              (Z.to_nat (PyDecimal.ndigits (10 ^ 29))) (10 ^ 29)
              (0 - 0 - (7 - (n + 1) + 28 + 1)) (0 - 0)) as [c1 e1].
  cbn [fst snd] in H1, H2, H3, H4, H5.
  assert (j = 0) by (apply H4; lia). subst j.
  rewrite Z.pow_0_r, Z.mul_1_r in H1. subst c1.
  unfold rbind, PyDecimal.fix_.
  change (10 ^ 29 =? 0) with false. cbv iota.
  change (PyDecimal.ndigits (10 ^ 29)) with 30.
  unfold PyDecimal.Etop, PyDecimal.Emax, PyDecimal.ctx_prec.
  replace (999999 - 28 + 1 <? 30 + e1 - 28) with true
    by (symmetry; apply Z.ltb_lt; lia).
  reflexivity.
Qed.

(** ** The digits of [repr] *)

Lemma digits2_pos_bound (m : positive) :
  Zpos m < 2 ^ Zpos (digits2_pos m).
Proof.
  induction m as [m IH | m IH |]; cbn [digits2_pos];
    rewrite ?Pos2Z.inj_succ, ?Z.pow_succ_r by lia; lia.
Qed.

Lemma valid_bounds (s : bool) (m : positive) (e : Z) :
  PyFloat.valid (S754_finite s m e) = true ->
  Zpos m < 2 ^ 53 /\ -1074 <= e <= 971.
Proof.
  unfold PyFloat.valid, valid_binary, bounded, canonical_mantissa, fexp, emin,
    PyFloat.prec, PyFloat.emax.
  intros H. apply andb_true_iff in H. destruct H as [H1 H2].
  apply Z.eqb_eq in H1. apply Z.leb_le in H2.
  pose proof (digits2_pos_bound m) as Hd.
  assert (Hle : Zpos (digits2_pos m) <= 53) by lia.
  split; [| lia].
  eapply Z.lt_le_trans; [exact Hd |].
  apply Z.pow_le_mono_r; lia.
Qed.

Lemma weight_pos (k : Z) : 0 <= k -> 0 < PyFloat.weight k.
Proof.
  intros Hk. unfold PyFloat.weight.
  apply Z.mul_pos_pos; [apply Z.pow_pos_nonneg; lia | now apply pow10_pos].
Qed.

Lemma weight_add (k j : Z) :
  0 <= k -> 0 <= j -> PyFloat.weight (k + j) = PyFloat.weight k * 10 ^ j.
Proof.
  intros Hk Hj. unfold PyFloat.weight. rewrite Z.pow_add_r by lia. ring.
Qed.

Lemma scaled_bounds (s : bool) (m : positive) (e : Z) :
  PyFloat.valid (S754_finite s m e) = true ->
  0 < PyFloat.scaled m e < PyFloat.weight 659.
Proof.
  intros Hv. destruct (valid_bounds s m e Hv) as [Hm He].
  unfold PyFloat.scaled, PyFloat.weight.
  assert (Hp2 : 0 < 2 ^ (e + 1074)) by (apply Z.pow_pos_nonneg; lia).
  assert (Hp10 : 0 < 10 ^ 350) by (apply pow10_pos; lia).
  split; [apply Z.mul_pos_pos; [apply Z.mul_pos_pos |]; lia |].
  assert (H1 : Zpos m * 2 ^ (e + 1074) < 2 ^ 53 * 2 ^ 2045).
  { apply Z.le_lt_trans with (Zpos m * 2 ^ 2045).
    - apply Z.mul_le_mono_nonneg_l; [lia |].
      apply Z.pow_le_mono_r; lia.
    - apply Z.mul_lt_mono_pos_r; [apply Z.pow_pos_nonneg; lia | exact Hm]. }
  apply Z.lt_le_trans with (2 ^ 53 * 2 ^ 2045 * 10 ^ 350).
  - apply Z.mul_lt_mono_pos_r; assumption.
  - apply Z.leb_le. vm_compute. reflexivity.
Qed.

Lemma ilog10_from_spec (fuel : nat) :
  forall a p : Z,
    -351 <= p ->
    let p' := PyFloat.ilog10_from fuel a p (PyFloat.weight (p + 351)) in
    p <= p' <= p + Z.of_nat fuel /\
    (a < PyFloat.weight (p' + 351) \/
     (p' = p + Z.of_nat fuel /\ (fuel <> O -> PyFloat.weight (p' + 350) <= a))).
Proof.
  induction fuel as [| fuel IH]; intros a p Hp; cbn [PyFloat.ilog10_from].
  - cbv zeta. split; [lia |]. right. split; [lia | congruence].
  - cbv zeta.
    destruct (PyFloat.weight (p + 351) <=? a) eqn:E.
    + apply Z.leb_le in E.
      replace (PyFloat.weight (p + 351) * 10)
        with (PyFloat.weight (p + 1 + 351)).
      2:{ replace (p + 1 + 351) with ((p + 351) + 1) by lia.
          rewrite weight_add by lia. now rewrite Z.pow_1_r. }
      specialize (IH a (p + 1) ltac:(lia)). cbv zeta in IH.
      destruct IH as [Hr Hcase].
      set (p' := PyFloat.ilog10_from fuel a (p + 1)
                   (PyFloat.weight (p + 1 + 351))) in *.
      split; [lia |].
      destruct Hcase as [Hlt | [Heq Hw]]; [left; exact Hlt |].
      right. split; [lia |]. intros _.
      destruct fuel as [| fuel'].
      * cbn [PyFloat.ilog10_from] in p'. subst p'.
        replace (p + 1 + 350) with (p + 351) by lia. exact E.
      * apply Hw. congruence.
    + apply Z.leb_gt in E. split; [lia |]. left. exact E.
Qed.

Lemma ilog10_bounds (s : bool) (m : positive) (e : Z) :
  PyFloat.valid (S754_finite s m e) = true ->
  let p := PyFloat.ilog10 (PyFloat.scaled m e) in
  -325 <= p <= 309 /\ PyFloat.scaled m e < PyFloat.weight (p + 351).
Proof.
  intros Hv. destruct (scaled_bounds s m e Hv) as [Ha1 Ha2].
  unfold PyFloat.ilog10.
  pose proof (ilog10_from_spec 634 (PyFloat.scaled m e) (-325) ltac:(lia))
    as H.
  change (-325 + 351) with 26 in H. cbv zeta in H |- *.
  set (p := PyFloat.ilog10_from 634 (PyFloat.scaled m e) (-325)
              (PyFloat.weight 26)) in *.
  destruct H as [Hr Hcase].
  change (Z.of_nat 634) with 634 in *.
  destruct Hcase as [Hlt | [Heq Hw]]; [split; [lia | exact Hlt] |].
  exfalso. specialize (Hw ltac:(discriminate)).
  replace (p + 350) with 659 in Hw by lia. lia.
Qed.

(** The coefficient offered with [nd] digits stays below [10^nd]. *)
Lemma candidate_bounds (x : PyFloat.float) (s : bool) (a p nd c q : Z) :
  0 <= a < PyFloat.weight (p + 351) -> -325 <= p -> 1 <= nd <= 17 ->
  PyFloat.candidate x s a p nd = Some (c, q) ->
  0 <= c <= 10 ^ 17 /\ q = p - nd + 1.
Proof.
  intros Ha Hp Hnd. unfold PyFloat.candidate.
  rewrite div_eucl_eq.
  set (w := PyFloat.weight (p - nd + 1 + 350)).
  assert (Hw : 0 < w) by (apply weight_pos; lia).
  assert (Hlo : 0 <= a / w < 10 ^ nd).
  { split; [apply Z.div_pos; lia |].
    apply Z.div_lt_upper_bound; [lia |].
    replace (w * 10 ^ nd) with (PyFloat.weight (p + 351)); [lia |].
    subst w. rewrite <- weight_add by lia. f_equal. lia. }
  assert (Hpow : 10 ^ nd <= 10 ^ 17) by (apply Z.pow_le_mono_r; lia).
  intros H.
  repeat match type of H with
         | context [if ?b then _ else _] => destruct b
         end;
    inversion H; subst; split; lia.
Qed.

Lemma shortest_from_bounds (x : PyFloat.float) (s : bool) (a p : Z)
      (fuel : nat) :
  forall nd : Z,
    0 <= a < PyFloat.weight (p + 351) -> -325 <= p ->
    1 <= nd -> nd + Z.of_nat fuel = 18 ->
    let cq := PyFloat.shortest_from fuel x s a p nd in
    0 <= fst cq <= 10 ^ 17 /\ p - 16 <= snd cq <= p.
Proof.
  induction fuel as [| fuel IH]; intros nd Ha Hp Hnd Hsum;
    cbn [PyFloat.shortest_from]; cbv zeta.
  - cbn [fst snd]. split; [| lia].
    assert (Hw : 0 < PyFloat.weight (p - 16 + 350)) by (apply weight_pos; lia).
    split; [apply Z.div_pos; lia |].
    apply Z.lt_le_incl. apply Z.div_lt_upper_bound; [lia |].
    replace (PyFloat.weight (p - 16 + 350) * 10 ^ 17)
      with (PyFloat.weight (p + 351)); [lia |].
    rewrite <- weight_add by lia. f_equal. lia.
  - destruct (PyFloat.candidate x s a p nd) as [[c q] |] eqn:E.
    + destruct (candidate_bounds x s a p nd c q Ha Hp ltac:(lia) E) as [Hc Hq].
      cbn [fst snd]. split; [exact Hc | lia].
    + apply IH; try assumption; lia.
Qed.

Lemma shortest_bounds (s : bool) (m : positive) (e : Z) :
  PyFloat.valid (S754_finite s m e) = true ->
  0 <= fst (PyFloat.shortest s m e) <= 10 ^ 17 /\
  -341 <= snd (PyFloat.shortest s m e) <= 310.
Proof.
  intros Hv. unfold PyFloat.shortest. cbv zeta.
  destruct (ilog10_bounds s m e Hv) as [Hp Ha].
  destruct (scaled_bounds s m e Hv) as [Ha1 _].
  set (a := PyFloat.scaled m e) in *.
  set (p := PyFloat.ilog10 a) in *.
  pose proof (shortest_from_bounds (S754_finite s m e) s a p 17 1
                                   ltac:(lia) ltac:(lia) ltac:(lia) ltac:(lia))
    as H.
  cbv zeta in H.
  destruct (PyFloat.shortest_from 17 (S754_finite s m e) s a p 1) as [c q].
  cbn [fst snd] in H.
  assert (0 < 10 ^ 17) by (apply pow10_pos; lia).
  destruct (c =? 10); cbn [fst snd]; lia.
Qed.

(** ** Converting to ledger units *)

(** [Decimal(str(x))] of a finite float keeps the sign and has a
    coefficient of at most 18 digits and a small exponent. *)
Lemma of_float_str_finite (s : bool) (m : positive) (e2 : Z) :
  PyFloat.valid (S754_finite s m e2) = true ->
  exists c e,
    PyDecimal.of_float_str (S754_finite s m e2) = PyDecimal.Finite s c e /\
    0 <= c <= 10 ^ 17 /\ -341 <= e <= 310.
Proof.
  intros Hv. destruct (shortest_bounds s m e2 Hv) as [Hc Hq].
  unfold PyDecimal.of_float_str.
  destruct (PyFloat.shortest s m e2) as [c q]. cbn [fst snd] in Hc, Hq.
  set (nd := PyDecimal.ndigits c).
  destruct ((q + nd <=? -4) || (16 <? q + nd)) eqn:E1.
  - exists c, q. repeat split; lia.
  - apply orb_false_iff in E1. destruct E1 as [E1 E2].
    apply Z.leb_gt in E1. apply Z.ltb_ge in E2.
    destruct (nd <=? q + nd) eqn:E3.
    + apply Z.leb_le in E3.
      exists (c * 10 ^ (q + nd - nd + 1)), (-1).
      split; [reflexivity |]. split; [| lia].
      replace (q + nd - nd + 1) with (q + 1) by lia.
      pose proof (pow10_pos (q + 1) ltac:(lia)) as Hp.
      split; [nia |].
      destruct (Z.eq_dec c 0) as [-> | Hc0]; [rewrite Z.mul_0_l; lia |].
      destruct (ndigits_spec c ltac:(lia)) as (Hn1 & _ & Hhi).
      fold nd in Hn1, Hhi.
      apply Z.le_trans with (10 ^ nd * 10 ^ (q + 1)); [nia |].
      rewrite <- Z.pow_add_r by lia. apply Z.pow_le_mono_r; lia.
    + exists c, q. repeat split; lia.
Qed.

Lemma to_usdc_units_of (x : PyFloat.float) (s : bool) (c e : Z) :
  PyDecimal.of_float_str x = PyDecimal.Finite s c e ->
  0 <= c <= 10 ^ 17 -> -341 <= e <= 310 ->
  InsurancePool._to_usdc_units x
  = Ok (let n := if 0 <=? e then c * 1000000 * 10 ^ e
                 else c * 1000000 / 10 ^ (- e) in
        if s then - n else n).
Proof.
  intros Hstr Hc He. unfold InsurancePool._to_usdc_units.
  rewrite Hstr, of_int_million. unfold PyDecimal.mul.
  rewrite xorb_false_r, Z.add_0_r.
  destruct (Z.eq_dec c 0) as [-> | Hc0].
  - rewrite Z.mul_0_l. unfold PyDecimal.fix_. change (0 =? 0) with true.
    cbv iota. unfold PyDecimal.Etiny, PyDecimal.Emax, PyDecimal.Emin,
      PyDecimal.ctx_prec.
    rewrite Z.max_l, Z.min_l by lia. reflexivity.
  - rewrite fix_small; [reflexivity | lia | | |].
    + apply ndigits_le; [lia | lia |].
      change (10 ^ 17) with 100000000000000000 in Hc.
      change (10 ^ 28) with 10000000000000000000000000000. lia.
    + unfold PyDecimal.Etiny, PyDecimal.Emin, PyDecimal.ctx_prec. lia.
    + lia.
Qed.

Lemma ltb_zero_negative (x : PyFloat.float) :
  PyFloat.is_finite x = true ->
  PyFloat.ltb x (S754_zero false) = true ->
  exists m e, x = S754_finite true m e.
Proof.
  unfold PyFloat.ltb, SFltb.
  destruct x as [s | s | | s m e]; cbn; try discriminate.
  destruct s; [| discriminate]. intros _ _. now exists m, e.
Qed.

Lemma leb_zero_nonnegative (x : PyFloat.float) :
  PyFloat.leb (S754_zero false) x = true ->
  (exists s, x = S754_zero s) \/ x = S754_infinity false \/
  (exists m e, x = S754_finite false m e).
Proof.
  unfold PyFloat.leb, SFleb.
  destruct x as [s | s | | s m e]; cbn; try discriminate.
  - intros _. left. now exists s.
  - destruct s; [discriminate |]. intros _. right. now left.
  - destruct s; [discriminate |]. intros _. right. right. now exists m, e.
Qed.

Lemma eqb_refl_finite (s : bool) (m : positive) (e : Z) :
  PyFloat.eqb (S754_finite s m e) (S754_finite s m e) = true.
Proof.
  unfold PyFloat.eqb, SFeqb, SFcompare.
  rewrite Z.compare_refl.
  assert (H : Pos.compare_cont Eq m m = Eq) by apply Pos.compare_refl.
  destruct s; rewrite H; reflexivity.
Qed.

Lemma round_Q_zero (s : bool) (e : Z) :
  PyFloat.round_Q s (PyFloat.decimal_value 0 e) = S754_zero s.
Proof.
  rewrite (round_Q_compat s (PyFloat.decimal_value 0 e) 0).
  - reflexivity.
  - unfold PyFloat.decimal_value, Qeq.
    destruct (0 <=? e); cbn [Qnum Qden inject_Z]; lia.
Qed.

(** ** Unit conversion: the claims *)

(** The digits [c] of a decimal [c * 10 ^ e], scaled by a million and cut
    off below the unit. *)
Lemma million_floor (c e : Z) :
  0 <= c ->
  let n := if 0 <=? e then c * 1000000 * 10 ^ e
           else c * 1000000 / 10 ^ (- e) in
  0 <= n /\
  (inject_Z n <= PyFloat.decimal_value c e * inject_Z 1000000)%Q /\
  (PyFloat.decimal_value c e * inject_Z 1000000 < inject_Z (n + 1))%Q.
Proof.
  intros Hc n. subst n. unfold PyFloat.decimal_value, Qle, Qlt.
  destruct (0 <=? e) eqn:E.
  - apply Z.leb_le in E. pose proof (pow10_pos e E).
    cbn [Qnum Qden inject_Z Qmult]. nia.
  - apply Z.leb_gt in E.
    pose proof (pow10_pos (- e) ltac:(lia)) as Hp.
    cbn [Qnum Qden inject_Z Qmult].
    rewrite Pos.mul_1_r, Z2Pos.id by lia.
    pose proof (Z.div_mod (c * 1000000) (10 ^ (- e)) ltac:(lia)) as Hdm.
    pose proof (Z.mod_pos_bound (c * 1000000) (10 ^ (- e)) Hp) as Hm.
    assert (0 <= c * 1000000 / 10 ^ (- e)) by (apply Z.div_pos; lia).
    split; [assumption |]. split; nia.
Qed.

(** C2, as the code has it. [_to_usdc_units] has no sign check: for every
    finite negative amount, which [str] shows as the decimal
    [- c * 10 ^ e], it raises nothing and returns the integer [z <= 0] with
    [- z <= c * 10 ^ e * 10 ^ 6 < - z + 1], that is, the amount scaled by a
    million and truncated towards zero. *)
Theorem to_usdc_units_negative (x : PyFloat.float) :
  PyFloat.valid x = true ->
  PyFloat.is_finite x = true ->
  PyFloat.ltb x (S754_zero false) = true ->
  exists c e z : Z,
    PyDecimal.of_float_str x = PyDecimal.Finite true c e /\
    InsurancePool._to_usdc_units x = Ok z /\
    z <= 0 /\
    (inject_Z (- z) <= PyFloat.decimal_value c e * inject_Z 1000000)%Q /\
    (PyFloat.decimal_value c e * inject_Z 1000000 < inject_Z (- z + 1))%Q.
Proof.
  intros Hv Hf Hneg.
  destruct (ltb_zero_negative x Hf Hneg) as (m & e2 & ->).
  destruct (of_float_str_finite true m e2 Hv) as (c & e & Hstr & Hc & He).
  destruct (million_floor c e ltac:(lia)) as (Hn0 & Hle & Hlt).
  exists c, e. eexists. split; [exact Hstr |].
  split; [exact (to_usdc_units_of _ true c e Hstr Hc He) |].
  cbv beta iota zeta in Hn0, Hle, Hlt |- *. rewrite Z.opp_involutive.
  split; [lia |]. split; assumption.
Qed.

Lemma to_usdc_units_negative_witness :
  exists c e z : Z,
    PyDecimal.of_float_str Scenario.f_neg_1_5 = PyDecimal.Finite true c e /\
    InsurancePool._to_usdc_units Scenario.f_neg_1_5 = Ok z /\
    z <= 0 /\
    (inject_Z (- z) <= PyFloat.decimal_value c e * inject_Z 1000000)%Q /\
    (PyFloat.decimal_value c e * inject_Z 1000000 < inject_Z (- z + 1))%Q.
Proof.
  apply (to_usdc_units_negative Scenario.f_neg_1_5); vm_compute; reflexivity.
Defined.

(** C2, as stated, fails: the amount -1.5 is converted to -1500000 units
    instead of being rejected. *)
Lemma to_usdc_units_negative_counterexample :
  InsurancePool._to_usdc_units Scenario.f_neg_1_5 = Ok (-1500000).
Proof. vm_compute. reflexivity. Qed.

(** C1. For every non-negative float whose [str] shows at most six
    decimals (and reads back as the same float, as [repr] guarantees),
    converting to ledger units and back returns a float equal to it. *)
Theorem usdc_units_round_trip (x : PyFloat.float) :
  PyFloat.valid x = true ->
  PyFloat.leb (S754_zero false) x = true ->
  decimals_at_most 6 x = true ->
  PyDecimal.to_float (PyDecimal.of_float_str x) = x ->
  exists (u : Z) (y : PyFloat.float),
    InsurancePool._to_usdc_units x = Ok u /\
    InsurancePool._from_usdc_units u = Ok y /\
    PyFloat.eqb y x = true.
Proof.
  intros Hv Hnn Hdec Hback.
  destruct (leb_zero_nonnegative x Hnn) as [[s ->] | [-> | (m & e2 & ->)]].
  - exists 0, (S754_zero false).
    destruct s; repeat split; vm_compute; reflexivity.
  - discriminate Hdec.
  - destruct (of_float_str_finite false m e2 Hv) as (c & e & Hstr & Hc & He).
    unfold decimals_at_most in Hdec. rewrite Hstr in Hdec, Hback.
    apply Z.leb_le in Hdec. cbn [PyDecimal.to_float] in Hback.
    assert (Hc0 : 0 < c).
    { destruct (Z.eq_dec c 0) as [-> | ?]; [| lia].
      rewrite round_Q_zero in Hback. discriminate. }
    rewrite (to_usdc_units_of _ false c e Hstr Hc He). cbv zeta.
    assert (Hu : (if 0 <=? e then c * 1000000 * 10 ^ e
                  else c * 1000000 / 10 ^ (- e)) = c * 10 ^ (e + 6)).
    { destruct (0 <=? e) eqn:E.
      - apply Z.leb_le in E. rewrite Z.pow_add_r by lia.
        change (10 ^ 6) with 1000000. ring.
      - apply Z.leb_gt in E.
        pose proof (pow10_pos (- e) ltac:(lia)).
        replace (c * 1000000) with (c * 10 ^ (e + 6) * 10 ^ (- e)).
        + apply Z.div_mul. lia.
        + rewrite <- Z.mul_assoc, <- Z.pow_add_r by lia.
          replace (e + 6 + - e) with 6 by lia. reflexivity. }
    rewrite Hu.
    pose proof (pow10_pos (e + 6) ltac:(lia)) as Hp.
    assert (Hn : PyDecimal.ndigits c <= 28).
    { apply Z.le_trans with 18; [| lia].
      apply ndigits_le; [lia | lia |].
      change (10 ^ 17) with 100000000000000000 in Hc.
      change (10 ^ 18) with 1000000000000000000. lia. }
    destruct (div_million_exact false c (e + 6) Hc0 Hn ltac:(lia))
      as (c' & e' & Hdiv & Hval).
    exists (c * 10 ^ (e + 6)), (S754_finite false m e2).
    split; [reflexivity |]. split; [| apply eqb_refl_finite].
    unfold InsurancePool._from_usdc_units.
    rewrite of_int_million. unfold PyDecimal.of_int.
    replace (c * 10 ^ (e + 6) <? 0) with false
      by (symmetry; apply Z.ltb_ge; nia).
    rewrite Z.abs_eq by nia.
    rewrite Hdiv. unfold rbind, PyDecimal.to_float. f_equal.
    rewrite <- Hback. apply round_Q_compat.
    rewrite Hval. replace (e + 6 - 6) with e by lia. reflexivity.
Qed.

Lemma usdc_units_round_trip_witness :
  exists (u : Z) (y : PyFloat.float),
    InsurancePool._to_usdc_units Scenario.f_1_5 = Ok u /\
    InsurancePool._from_usdc_units u = Ok y /\
    PyFloat.eqb y Scenario.f_1_5 = true.
Proof.
  apply (usdc_units_round_trip Scenario.f_1_5); vm_compute; reflexivity.
Defined.

(** C10, as the code has it. [_from_usdc_units] accepts integers of
    either sign: it raises nothing on an integer of at most 1000005
    decimal digits, and on one of at most 28 digits it returns the float
    nearest to [u / 10^6]. *)
Theorem from_usdc_units_domain (u : Z) :
  (PyDecimal.ndigits (Z.abs u) <= 1000005 ->
   exists x, InsurancePool._from_usdc_units u = Ok x) /\
  (PyDecimal.ndigits (Z.abs u) <= 28 ->
   InsurancePool._from_usdc_units u
   = Ok (PyFloat.round_Q (u <? 0) (Z.abs u # 1000000))).
Proof.
  split; [apply from_usdc_units_total | apply from_usdc_units_exact].
Qed.

Lemma from_usdc_units_domain_witness :
  (exists x, InsurancePool._from_usdc_units (-1500000) = Ok x) /\
  InsurancePool._from_usdc_units (-1500000) = Ok Scenario.f_neg_1_5.
Proof.
  destruct (from_usdc_units_domain (-1500000)) as [Htot Hex].
  split.
  - apply Htot. vm_compute. discriminate.
  - rewrite Hex by (vm_compute; discriminate). vm_compute. reflexivity.
Defined.

(** C10, as stated, fails: on the integer [10 ** 1000006] the division
    overflows the decimal context and [decimal.Overflow] is raised. *)
Lemma from_usdc_units_total_counterexample :
  InsurancePool._from_usdc_units (10 ^ 1000006) = Raise DecimalOverflow.
Proof. apply from_usdc_units_pow10_overflow. lia. Qed.

(** ** Pool utilization *)

(** C8, as the code has it. [get_pool_info] reports utilization 0 when
    the reserves are zero (indeed whenever they are not positive), and
    otherwise [round(q * 100, 2)] in binary64, where [q] is the float
    nearest to [total_coverage / total_reserves]. *)
Theorem get_pool_info_utilization
        (env : Web3.Env) (self : InsurancePool.t) (tr tr' : list Web3.rpc)
        (info : InsurancePool.PoolInfo) :
  InsurancePool.get_pool_info self env tr = (Ok info, tr') ->
  exists reserves coverage : Z,
    Web3.ans_totalReserves env (List.length tr) = Ok reserves /\
    Web3.ans_totalCoverageProvided env (List.length tr + 1) = Ok coverage /\
    (reserves <= 0 -> InsurancePool.utilization_percent info = Int 0) /\
    (0 < reserves ->
     exists q : PyFloat.float,
       PyFloat.int_true_div coverage reserves = Ok q /\
       InsurancePool.utilization_percent info
       = Float (PyFloat.round2 (PyFloat.mul q (PyFloat.of_int 100)))).
Proof.
  unfold InsurancePool.get_pool_info, InsurancePool.utilization_of,
    Web3.bind, Web3.lift, Web3.request, Web3.ret, rbind.
  intros H. destruct_innermost H; inversion H; subst info tr'; clear H;
    norm_lengths; cbn [InsurancePool.utilization_percent round_number];
    eexists; eexists; (split; [reflexivity |]); (split; [eassumption |]);
    match goal with
    | E : (0 <? _) = true |- _ => apply Z.ltb_lt in E
    | E : (0 <? _) = false |- _ => apply Z.ltb_ge in E
    end;
    (split; [intros; first [reflexivity | lia] |]);
    intros; first [lia | eexists; split; [eassumption | reflexivity]].
Qed.

Lemma get_pool_info_utilization_witness :
  exists (info : InsurancePool.PoolInfo) (tr' : list Web3.rpc),
    InsurancePool.get_pool_info Scenario.pool (Scenario.calm 0 (Ok tt)) []
    = (Ok info, tr') /\
    InsurancePool.utilization_percent info = Float Scenario.f_14_37.
Proof.
  eexists; eexists.
  assert (H : InsurancePool.get_pool_info
                Scenario.pool (Scenario.calm 0 (Ok tt)) [] = (Ok _, _))
    by (vm_compute; reflexivity).
  split; [exact H |].
  destruct (get_pool_info_utilization _ _ _ _ _ H)
    as (reserves & coverage & Hr & Hc & _ & Hpos).
  vm_compute in Hr, Hc. inversion Hr; inversion Hc; subst.
  destruct (Hpos ltac:(lia)) as (q & Hq & Hu).
  vm_compute in Hq. inversion Hq; subst q.
  rewrite Hu. vm_compute. reflexivity.
Defined.

(** C8, as stated, fails: with 23 units of coverage on 160 units of
    reserves the exact utilization is 14.375 percent, which rounds to
    14.38 (to even as well as upwards), while the method returns 14.37,
    because [23 / 160 * 100] is [14.374999999999998] in binary64. *)
Lemma get_pool_info_utilization_counterexample :
  exists (info : InsurancePool.PoolInfo) (tr' : list Web3.rpc),
    InsurancePool.get_pool_info Scenario.pool (Scenario.calm 0 (Ok tt)) []
    = (Ok info, tr') /\
    utilization_exact 23 160 = Scenario.f_14_38 /\
    InsurancePool.utilization_percent info = Float Scenario.f_14_37 /\
    InsurancePool.utilization_percent info <> Float (utilization_exact 23 160).
Proof.
  eexists; eexists. split; [vm_compute; reflexivity |].
  split; [vm_compute; reflexivity |].
  split; [vm_compute; reflexivity |].
  vm_compute. discriminate.
Qed.

(** ** Premium quote *)

(** C9, as the code has it. The quote asks the pool for the premium at
    risk score 1000, reads the immunization flag from the registry and
    returns it; the discount is 50 percent when the flag is set and 0
    otherwise; the base and final premiums are returned rounded to two
    decimals, the final one being [round(base * (1 - discount), 2)] for the
    unrounded base. *)
Theorem get_premium_quote_spec
        (env : Web3.Env) (self : Agent.t) (coverage_amount : PyFloat.float)
        (duration_days : Z) (agent : Web3.address)
        (tr tr' : list Web3.rpc) (q : Agent.Quote) :
  Web3.to_checksum_address env (Agent.address self) = Ok agent ->
  Web3.to_checksum_address env agent = Ok agent ->
  Agent.get_premium_quote self coverage_amount duration_days env tr
  = (Ok q, tr') ->
  exists (units premium : Z) (base : PyFloat.float),
    InsurancePool._to_usdc_units coverage_amount = Ok units /\
    Web3.ans_calculatePremium env (List.length tr) units
                              (duration_days * 24 * 60 * 60) 1000
    = Ok premium /\
    InsurancePool._from_usdc_units premium = Ok base /\
    Web3.ans_isImmunized env (List.length tr + 1) agent
    = Ok (Agent.immunized q) /\
    Agent.base_premium_usd q = PyFloat.round2 base /\
    Agent.discount_percent q
    = (if Agent.immunized q then Scenario.f_50 else Agent.zero) /\
    Agent.final_premium_usd q
    = PyFloat.round2
        (PyFloat.mul base (if Agent.immunized q then Agent.half
                           else PyFloat.of_int 1)).
Proof.
  intros Hc Hi H. unfold Agent.get_premium_quote in H.
  apply bind_inv in H. destruct H as [(base & tr1 & Hprem & H) | (e & _ & He)];
    [| discriminate He].
  apply bind_inv in H. destruct H as [(st & tr2 & Hst & H) | (e & _ & He)];
    [| discriminate He].
  unfold Web3.ret in H. inversion H; subst q tr'; clear H.
  unfold InsurancePool.calculate_premium, Web3.bind, Web3.lift, Web3.request
    in Hprem.
  destruct_innermost Hprem; inversion Hprem; subst tr1; clear Hprem.
  unfold Agent.registry_status in Hst.
  destruct (get_agent_status_reads env (Agent.registry self)
              (Agent.address self) agent Hc Hi _ _ _ Hst)
    as (t2 & Himm & _).
  norm_lengths.
  match goal with
  | E : InsurancePool._to_usdc_units _ = Ok ?u,
    P : Web3.ans_calculatePremium _ _ _ _ _ = Ok ?p |- _ =>
      exists u, p, base
  end.
  cbn [Agent.immunized Agent.base_premium_usd Agent.discount_percent
       Agent.final_premium_usd].
  repeat split; try assumption; try congruence.
  - destruct (LobSecRegistry.immunized st); vm_compute; reflexivity.
  - destruct (LobSecRegistry.immunized st); reflexivity.
Qed.

Lemma get_premium_quote_spec_witness :
  exists (q : Agent.Quote) (tr' : list Web3.rpc),
    Agent.get_premium_quote Scenario.agent Scenario.f_1000 30
                            (Scenario.calm 100000000 (Ok tt)) []
    = (Ok q, tr') /\
    Agent.immunized q = true /\
    Agent.base_premium_usd q = Scenario.f_100 /\
    Agent.discount_percent q = Scenario.f_50 /\
    Agent.final_premium_usd q = Scenario.f_50.
Proof.
  eexists; eexists.
  assert (H : Agent.get_premium_quote
                Scenario.agent Scenario.f_1000 30
                (Scenario.calm 100000000 (Ok tt)) [] = (Ok _, _))
    by (vm_compute; reflexivity).
  split; [exact H |].
  destruct (get_premium_quote_spec
              (Scenario.calm 100000000 (Ok tt)) Scenario.agent
              Scenario.f_1000 30 Scenario.addr [] _ _ eq_refl eq_refl H)
    as (units & premium & base & _ & Hp & Hb & _ & Hbase & Hd & Hf).
  vm_compute in Hp. inversion Hp; subst premium.
  vm_compute in Hb. inversion Hb; subst base.
  rewrite Hbase, Hd, Hf.
  repeat split; vm_compute; reflexivity.
Defined.

(** C9, as stated, fails: for a premium of 10000 units (0.01 USDC) and an
    immunized agent the quote returns base 0.01, discount 50 percent and
    final premium 0.01, not [0.01 * (1 - 0.5) = 0.005]. *)
Lemma get_premium_quote_counterexample :
  exists (q : Agent.Quote) (tr' : list Web3.rpc),
    Agent.get_premium_quote Scenario.agent Scenario.f_1000 30
                            (Scenario.calm 10000 (Ok tt)) []
    = (Ok q, tr') /\
    Agent.immunized q = true /\
    Agent.discount_percent q = Scenario.f_50 /\
    Agent.base_premium_usd q = Scenario.f_0_01 /\
    Agent.final_premium_usd q = Scenario.f_0_01 /\
    PyFloat.mul (Agent.base_premium_usd q)
                (PyFloat.sub (PyFloat.of_int 1) Agent.half)
    = Scenario.f_0_005 /\
    PyFloat.eqb (Agent.final_premium_usd q)
                (PyFloat.mul (Agent.base_premium_usd q)
                             (PyFloat.sub (PyFloat.of_int 1) Agent.half))
    = false.
Proof.
  eexists; eexists. split; [vm_compute; reflexivity |].
  repeat split; vm_compute; reflexivity.
Qed.

(** * Further properties of the clients *)

(** ** Traces of the two-step flows *)

Lemma senders_app (l1 l2 : list Web3.rpc) :
  senders (l1 ++ l2) = (senders l1 ++ senders l2)%list.
Proof.
  induction l1 as [| ev l1 IH]; simpl; [reflexivity |].
  destruct ev; simpl; try exact IH. now rewrite IH.
Qed.

(** All the answers a method body depends on, with the trace it leaves
    written as [tr ++ evs]. *)
Ltac run_cases H :=
  destruct_innermost H; inversion H; subst; clear H;
  repeat rewrite <- app_assoc; simpl app.

Ltac unfold_web3 H :=
  unfold Web3.transact, Web3.wait_receipt, Web3.bind, Web3.local_, Web3.lift,
    Web3.request, Web3.ret, Web3.raise in H.

(** The staking flow submits the approval of the staked units to the
    staking contract before [stakeAsAgent] for the same units, and nothing
    else; when waiting for the approval's receipt raises, the method raises
    the same exception and only the approval has been submitted. *)
Theorem stake_for_insurance_order
        (env : Web3.Env) (self : InsurancePool.t) (amount : PyFloat.float)
        (private_key : string) (tr tr' : list Web3.rpc)
        (r : result Web3.tx_hash) :
  InsurancePool.stake_for_insurance self amount private_key env tr = (r, tr') ->
  exists evs : list Web3.rpc,
    tr' = (tr ++ evs)%list /\
    (writes evs = [] \/
     exists units : Z,
       InsurancePool._to_usdc_units amount = Ok units /\
       (writes evs
        = [Web3.approve (InsurancePool.staking_address self) units] \/
        writes evs
        = [Web3.approve (InsurancePool.staking_address self) units;
           Web3.stakeAsAgent units])) /\
    (forall k h e,
       nth_error evs k = Some (Web3.wait_for_transaction_receipt h) ->
       Web3.ans_wait_for_transaction_receipt env (List.length tr + k) h
       = Raise e ->
       r = Raise e /\
       exists units : Z,
         writes evs
         = [Web3.approve (InsurancePool.staking_address self) units]).
Proof.
  unfold InsurancePool.stake_for_insurance. intros H. unfold_web3 H.
  run_cases H;
    (eexists; split;
     [first [reflexivity | symmetry; apply app_nil_r] |]);
    (split; [simpl; eauto 8 |]);
    intros k h ex Hk Hw;
    repeat (destruct k as [| k]; simpl in Hk; try discriminate);
    inversion Hk; subst; norm_lengths;
    first [congruence | split; [congruence | simpl; eauto]].
Qed.

Lemma stake_for_insurance_order_witness :
  let env := Scenario.calm 0 (Raise (RpcError 1)) in
  let run := InsurancePool.stake_for_insurance
               Scenario.pool Scenario.f_100 "key" env [] in
  fst run = Raise (RpcError 1) /\
  writes (snd run) = [Web3.approve AGENT_STAKING 100000000].
Proof.
  intros env run.
  destruct (stake_for_insurance_order
              env Scenario.pool Scenario.f_100 "key" [] (snd run) (fst run)
              (surjective_pairing run))
    as (evs & Htr & _ & Habort).
  cbn [app] in Htr.
  assert (Hev : nth_error (snd run) 2
                = Some (Web3.wait_for_transaction_receipt 1))
    by (vm_compute; reflexivity).
  rewrite Htr in Hev.
  destruct (Habort 2%nat 1 (RpcError 1) Hev eq_refl) as [Hr _].
  split; [exact Hr |]. vm_compute. reflexivity.
Defined.

(** The requests issued by the body of a successful [purchase_coverage]
    are these six, in this order: the premium quote for the converted
    amount, duration and risk score; a nonce query and the approval of
    exactly that premium for the pool, sent to the token contract; the wait
    for its receipt; a second nonce query and [createCoverage] for the same
    amount, duration and risk score, sent to the pool. It returns the hash
    of the second transaction. The chain-id lookups web3 adds of its own
    accord are not among the recorded requests. *)
Theorem purchase_coverage_success
        (env : Web3.Env) (self : InsurancePool.t)
        (agent_address protocol_address : string) (amount : PyFloat.float)
        (duration_days : Z) (private_key : string) (risk_score : Z)
        (tr tr' : list Web3.rpc) (h : Web3.tx_hash) :
  InsurancePool.purchase_coverage self agent_address protocol_address amount
    duration_days private_key risk_score env tr = (Ok h, tr') ->
  exists (agent protocol account : Web3.address)
         (units premium n1 n2 : Z) (h1 : Web3.tx_hash),
    let seconds := duration_days * 24 * 60 * 60 in
    let approval :=
      {| Web3.tx_to := InsurancePool.usdc self;
         Web3.tx_data := Web3.approve (InsurancePool.pool_address self) premium;
         Web3.tx_from := account; Web3.tx_nonce := n1;
         Web3.tx_gas := 100000;
         Web3.tx_maxFeePerGas := 100000000;
         Web3.tx_maxPriorityFeePerGas := 1000000 |} in
    let creation :=
      {| Web3.tx_to := InsurancePool.pool_address self;
         Web3.tx_data :=
           Web3.createCoverage agent protocol units seconds risk_score;
         Web3.tx_from := account; Web3.tx_nonce := n2;
         Web3.tx_gas := 300000;
         Web3.tx_maxFeePerGas := 100000000;
         Web3.tx_maxPriorityFeePerGas := 1000000 |} in
    Web3.to_checksum_address env agent_address = Ok agent /\
    Web3.to_checksum_address env protocol_address = Ok protocol /\
    InsurancePool._to_usdc_units amount = Ok units /\
    Web3.from_key env private_key = Ok account /\
    Web3.ans_calculatePremium env (List.length tr) units seconds risk_score
    = Ok premium /\
    Web3.ans_get_transaction_count env (List.length tr + 1) account = Ok n1 /\
    Web3.ans_send_raw_transaction env (List.length tr + 2) approval = Ok h1 /\
    Web3.ans_wait_for_transaction_receipt env (List.length tr + 3) h1
    = Ok tt /\
    Web3.ans_get_transaction_count env (List.length tr + 4) account = Ok n2 /\
    Web3.ans_send_raw_transaction env (List.length tr + 5) creation = Ok h /\
    tr' = (tr ++ [Web3.eth_call (InsurancePool.pool_address self)
                    (Web3.calculatePremium units seconds risk_score);
                  Web3.get_transaction_count account;
                  Web3.send_raw_transaction approval;
                  Web3.wait_for_transaction_receipt h1;
                  Web3.get_transaction_count account;
                  Web3.send_raw_transaction creation])%list.
Proof.
  unfold InsurancePool.purchase_coverage. intros H. unfold_web3 H.
  destruct_innermost H; inversion H; subst; clear H.
  repeat rewrite <- app_assoc; simpl app. norm_lengths.
  match goal with
  | U : unit |- _ => destruct U
  end.
  do 8 eexists. cbv zeta.
  repeat (split; [first [reflexivity | eassumption] |]).
  reflexivity.
Qed.

Lemma purchase_coverage_success_witness :
  exists tr' : list Web3.rpc,
    InsurancePool.purchase_coverage
      Scenario.pool Scenario.addr Scenario.addr Scenario.f_1000 30 "key" 500
      (Scenario.calm 10000 (Ok tt)) [] = (Ok 1, tr') /\
    writes tr' = [Web3.approve AGENT_INSURANCE_POOL 10000;
                  Web3.createCoverage Scenario.addr Scenario.addr 1000000000
                                      2592000 500].
Proof.
  eexists.
  assert (H : InsurancePool.purchase_coverage
                Scenario.pool Scenario.addr Scenario.addr Scenario.f_1000 30
                "key" 500 (Scenario.calm 10000 (Ok tt)) [] = (Ok 1, _))
    by (vm_compute; reflexivity).
  split; [exact H |].
  destruct (purchase_coverage_success _ _ _ _ _ _ _ _ _ _ _ H)
    as (agent & protocol & account & units & premium & n1 & n2 & h1 & Hs).
  cbv zeta in Hs.
  destruct Hs as (Ha & Hp & Hu & _ & Hprem & _ & _ & _ & _ & _ & Htr).
  vm_compute in Ha, Hp, Hu, Hprem.
  inversion Ha; inversion Hp; inversion Hu; inversion Hprem; subst.
  vm_compute. reflexivity.
Defined.

(** ** What the agent facade sends *)

(** Reads of the registry leave no transaction behind. *)
Lemma get_agent_status_no_write
      (env : Web3.Env) (self : Web3.address) (agent_address : string)
      (tr : list Web3.rpc) :
  exists evs : list Web3.rpc,
    snd (LobSecRegistry.get_agent_status self agent_address env tr)
    = (tr ++ evs)%list /\
    writes evs = [] /\ senders evs = [] /\
    fresh_nonces env (List.length tr) evs.
Proof.
  destruct (LobSecRegistry.get_agent_status self agent_address env tr)
    as [r tr'] eqn:H.
  unfold LobSecRegistry.get_agent_status, LobSecRegistry.is_immunized,
    LobSecRegistry.get_threat_level in H.
  unfold_web3 H.
  run_cases H; cbn [snd];
    (eexists; split;
     [first [reflexivity | symmetry; apply app_nil_r] |]);
    simpl; auto.
Qed.

(** The writes of the pool client's [purchase_coverage], with their
    arguments. *)
Lemma purchase_coverage_writes
      (env : Web3.Env) (self : InsurancePool.t)
      (agent_address protocol_address : string) (amount : PyFloat.float)
      (duration_days : Z) (private_key : string) (risk_score : Z)
      (tr : list Web3.rpc) :
  exists evs : list Web3.rpc,
    snd (InsurancePool.purchase_coverage self agent_address protocol_address
           amount duration_days private_key risk_score env tr)
    = (tr ++ evs)%list /\
    (writes evs = [] \/
     exists (agent protocol : Web3.address) (units premium : Z),
       Web3.to_checksum_address env agent_address = Ok agent /\
       Web3.to_checksum_address env protocol_address = Ok protocol /\
       InsurancePool._to_usdc_units amount = Ok units /\
       (writes evs
        = [Web3.approve (InsurancePool.pool_address self) premium] \/
        writes evs
        = [Web3.approve (InsurancePool.pool_address self) premium;
           Web3.createCoverage agent protocol units
             (duration_days * 24 * 60 * 60) risk_score])).
Proof.
  destruct (InsurancePool.purchase_coverage self agent_address protocol_address
              amount duration_days private_key risk_score env tr)
    as [r tr'] eqn:H.
  unfold InsurancePool.purchase_coverage in H. unfold_web3 H.
  run_cases H; cbn [snd];
    (eexists; split;
     [first [reflexivity | symmetry; apply app_nil_r] |]);
    simpl; eauto 12.
Qed.

(** Every [createCoverage] submitted by [Agent.purchase_coverage] covers
    the agent's own address for the requested duration, at risk score 500
    when the registry's first answer says the agent is immunized and at
    1000 otherwise. *)
Theorem agent_purchase_risk_score
        (env : Web3.Env) (self : Agent.t) (protocol_address : string)
        (amount : PyFloat.float) (duration_days : Z) (agent : Web3.address)
        (tr : list Web3.rpc) :
  Web3.to_checksum_address env (Agent.address self) = Ok agent ->
  Web3.to_checksum_address env agent = Ok agent ->
  exists evs : list Web3.rpc,
    snd (Agent.purchase_coverage self protocol_address amount duration_days
                                 env tr) = (tr ++ evs)%list /\
    forall (a p : Web3.address) (u d rs : Z),
      In (Web3.createCoverage a p u d rs) (writes evs) ->
      a = agent /\ d = duration_days * 24 * 60 * 60 /\
      InsurancePool._to_usdc_units amount = Ok u /\
      exists imm : bool,
        Web3.ans_isImmunized env (List.length tr) agent = Ok imm /\
        rs = (if imm then 500 else 1000).
Proof.
  intros Hc Hi. unfold Agent.purchase_coverage, Agent.registry_status.
  destruct (get_agent_status_no_write env (Agent.registry self)
              (Agent.address self) tr) as (evs0 & Htr0 & Hw0 & _ & _).
  unfold Web3.bind.
  destruct (LobSecRegistry.get_agent_status (Agent.registry self)
              (Agent.address self) env tr) as [[st | e] tr1] eqn:Hst;
    cbn [snd] in Htr0; subst tr1.
  - destruct (get_agent_status_reads env (Agent.registry self)
                (Agent.address self) agent Hc Hi _ _ _ Hst)
      as (_ & Himm & _).
    set (rs0 := if LobSecRegistry.immunized st then 500 else 1000).
    destruct (purchase_coverage_writes env (Agent.insurance self)
                (Agent.address self) protocol_address amount duration_days
                (Agent._private_key self) rs0 (tr ++ evs0))
      as (evs1 & Htr1 & Hw1).
    exists (evs0 ++ evs1)%list. split.
    + rewrite Htr1. now rewrite app_assoc.
    + intros a p u d rs Hin. rewrite writes_app, Hw0 in Hin. cbn [app] in Hin.
      destruct Hw1 as [Hw1 | (ag & pr & un & prem & Hag & _ & Hun & Hw1)];
        [rewrite Hw1 in Hin; contradiction |].
      rewrite Hc in Hag. inversion Hag; subst ag.
      destruct Hw1 as [Hw1 | Hw1]; rewrite Hw1 in Hin; cbn [In] in Hin.
      * destruct Hin as [Hin | []]. discriminate Hin.
      * destruct Hin as [Hin | [Hin | []]]; [discriminate Hin |].
        inversion Hin; subst. repeat split; try assumption.
        exists (LobSecRegistry.immunized st). split; [exact Himm | reflexivity].
  - exists evs0. cbn [snd]. split; [reflexivity |].
    intros a p u d rs Hin. rewrite Hw0 in Hin. contradiction.
Qed.

Lemma agent_purchase_risk_score_witness :
  writes (snd (Agent.purchase_coverage Scenario.agent Scenario.addr
                 Scenario.f_1000 30 (Scenario.calm 10000 (Ok tt)) []))
  = [Web3.approve AGENT_INSURANCE_POOL 10000;
     Web3.createCoverage Scenario.addr Scenario.addr 1000000000 2592000 500]
  /\
  exists imm : bool,
    Web3.ans_isImmunized (Scenario.calm 10000 (Ok tt)) 0 Scenario.addr
    = Ok imm /\ 500 = (if imm then 500 else 1000).
Proof.
  assert (Hw : writes (snd (Agent.purchase_coverage Scenario.agent
                              Scenario.addr Scenario.f_1000 30
                              (Scenario.calm 10000 (Ok tt)) []))
               = [Web3.approve AGENT_INSURANCE_POOL 10000;
                  Web3.createCoverage Scenario.addr Scenario.addr 1000000000
                                      2592000 500])
    by (vm_compute; reflexivity).
  split; [exact Hw |].
  destruct (agent_purchase_risk_score
              (Scenario.calm 10000 (Ok tt)) Scenario.agent Scenario.addr
              Scenario.f_1000 30 Scenario.addr [] eq_refl eq_refl)
    as (evs & Htr & Hall).
  cbn [app] in Htr. rewrite Htr in Hw.
  destruct (Hall Scenario.addr Scenario.addr 1000000000 2592000 500)
    as (_ & _ & _ & Himm).
  - rewrite Hw. cbn [In]. right. left. reflexivity.
  - exact Himm.
Defined.

(** [Agent.immunize] only registers: it submits at most one transaction,
    [registerAgent] for the agent's address sent to the registry, and never
    the registry's [immunize]. *)
Theorem agent_immunize_registers_only
        (env : Web3.Env) (self : Agent.t) (tr : list Web3.rpc) :
  exists evs : list Web3.rpc,
    snd (Agent.immunize self env tr) = (tr ++ evs)%list /\
    (evs = [] \/
     exists (agent account : Web3.address),
       Web3.to_checksum_address env (Agent.address self) = Ok agent /\
       Web3.from_key env (Agent._private_key self) = Ok account /\
       (evs = [Web3.get_transaction_count account] \/
        exists n : Z,
          evs = [Web3.get_transaction_count account;
                 Web3.send_raw_transaction
                   {| Web3.tx_to := Agent.registry self;
                      Web3.tx_data := Web3.registerAgent agent;
                      Web3.tx_from := account; Web3.tx_nonce := n;
                      Web3.tx_gas := 200000;
                      Web3.tx_maxFeePerGas := 100000000;
                      Web3.tx_maxPriorityFeePerGas := 1000000 |}])).
Proof.
  destruct (Agent.immunize self env tr) as [r tr'] eqn:H.
  unfold Agent.immunize, LobSecRegistry.register_agent in H. unfold_web3 H.
  run_cases H; cbn [snd];
    (eexists; split;
     [first [reflexivity | symmetry; apply app_nil_r] |]);
    eauto 10.
Qed.

(** ** Reads never write *)

(** None of the read operations submits a transaction, whatever the
    endpoint answers. *)
Theorem reads_submit_nothing (env : Web3.Env) (tr : list Web3.rpc) :
  (forall self a,
     writes (snd (LobSecRegistry.get_agent_status self a env tr)) = writes tr)
  /\
  (forall self,
     writes (snd (InsurancePool.get_pool_info self env tr)) = writes tr) /\
  (forall self amount days risk,
     writes (snd (InsurancePool.calculate_premium self amount days risk
                                                  env tr)) = writes tr) /\
  (forall self a,
     writes (snd (InsurancePool.get_agent_coverage_info self a env tr))
     = writes tr) /\
  (forall self a amount,
     writes (snd (InsurancePool.is_covered self a amount env tr))
     = writes tr) /\
  (forall self amount days,
     writes (snd (Agent.get_premium_quote self amount days env tr))
     = writes tr) /\
  (forall self, writes (snd (Agent.balance_usdc self env tr)) = writes tr).
Proof.
  repeat split; intros.
  - destruct (get_agent_status_no_write env self a tr) as (evs & -> & Hw & _).
    now rewrite writes_app, Hw, app_nil_r.
  - destruct (InsurancePool.get_pool_info self env tr) as [r tr'] eqn:H.
    unfold InsurancePool.get_pool_info in H. unfold_web3 H.
    run_cases H; cbn [snd]; rewrite ?writes_app; simpl;
      rewrite ?app_nil_r; reflexivity.
  - destruct (InsurancePool.calculate_premium self amount days risk env tr)
      as [r tr'] eqn:H.
    unfold InsurancePool.calculate_premium in H. unfold_web3 H.
    run_cases H; cbn [snd]; rewrite ?writes_app; simpl;
      rewrite ?app_nil_r; reflexivity.
  - destruct (InsurancePool.get_agent_coverage_info self a env tr)
      as [r tr'] eqn:H.
    unfold InsurancePool.get_agent_coverage_info in H. unfold_web3 H.
    run_cases H; cbn [snd]; rewrite ?writes_app; simpl;
      rewrite ?app_nil_r; reflexivity.
  - destruct (InsurancePool.is_covered self a amount env tr) as [r tr'] eqn:H.
    unfold InsurancePool.is_covered, InsurancePool.get_agent_coverage_info
      in H.
    unfold_web3 H.
    run_cases H; cbn [snd]; rewrite ?writes_app; simpl;
      rewrite ?app_nil_r; reflexivity.
  - unfold Agent.get_premium_quote, Agent.registry_status, Web3.bind.
    destruct (InsurancePool.calculate_premium (Agent.insurance self) amount
                days 1000 env tr) as [r1 tr1] eqn:H1.
    assert (Hw1 : writes tr1 = writes tr).
    { unfold InsurancePool.calculate_premium in H1. unfold_web3 H1.
      run_cases H1; rewrite ?writes_app; simpl; rewrite ?app_nil_r;
        reflexivity. }
    destruct r1 as [base | e]; [| exact Hw1].
    destruct (get_agent_status_no_write env (Agent.registry self)
                (Agent.address self) tr1) as (evs & Htr & Hw & _).
    destruct (LobSecRegistry.get_agent_status (Agent.registry self)
                (Agent.address self) env tr1) as [[st | e] tr2];
      cbn [snd] in Htr |- *; subst tr2; unfold Web3.ret; cbn [snd];
      now rewrite writes_app, Hw, app_nil_r.
  - destruct (Agent.balance_usdc self env tr) as [r tr'] eqn:H.
    unfold Agent.balance_usdc in H. unfold_web3 H.
    run_cases H; cbn [snd]; rewrite ?writes_app; simpl;
      rewrite ?app_nil_r; reflexivity.
Qed.

(** ** Who sends, and with which nonce *)

Ltac close_sent_by :=
  cbn [snd]; unfold sent_by;
  (eexists; split;
   [first [reflexivity | symmetry; apply app_nil_r] |]);
  simpl; norm_lengths; repeat split; auto.

(** Every transaction submitted by a write method of the agent is sent
    from the account of the agent's private key, whatever [Agent.address]
    is, and carries the nonce the endpoint answered to the query made
    immediately before it. *)
Theorem agent_transactions_sent_by_key
        (env : Web3.Env) (self : Agent.t) (account : Web3.address)
        (tr : list Web3.rpc) :
  Web3.from_key env (Agent._private_key self) = Ok account ->
  sent_by env account tr (snd (Agent.immunize self env tr)) /\
  (forall usd, sent_by env account tr (snd (Agent.stake self usd env tr))) /\
  sent_by env account tr (snd (Agent.unstake_request self env tr)) /\
  sent_by env account tr (snd (Agent.unstake_execute self env tr)) /\
  (forall protocol amount days,
     sent_by env account tr
             (snd (Agent.purchase_coverage self protocol amount days
                                           env tr))).
Proof.
  intros Hkey. repeat split; intros.
  - destruct (Agent.immunize self env tr) as [r tr'] eqn:H.
    unfold Agent.immunize, LobSecRegistry.register_agent in H. unfold_web3 H.
    rewrite Hkey in H. run_cases H; close_sent_by.
  - destruct (Agent.stake self usd env tr) as [r tr'] eqn:H.
    unfold Agent.stake in H.
    destruct (PyFloat.ltb usd (PyFloat.of_int 100)).
    + unfold Web3.raise in H. inversion H; subst. close_sent_by.
    + unfold InsurancePool.stake_for_insurance in H.
      unfold_web3 H. rewrite Hkey in H. run_cases H; close_sent_by.
  - destruct (Agent.unstake_request self env tr) as [r tr'] eqn:H.
    unfold Agent.unstake_request in H. unfold_web3 H.
    rewrite Hkey in H. run_cases H; close_sent_by.
  - destruct (Agent.unstake_execute self env tr) as [r tr'] eqn:H.
    unfold Agent.unstake_execute in H. unfold_web3 H.
    rewrite Hkey in H. run_cases H; close_sent_by.
  - destruct (Agent.purchase_coverage self protocol amount days env tr)
      as [r tr'] eqn:H.
    unfold Agent.purchase_coverage, Agent.registry_status,
      LobSecRegistry.get_agent_status, LobSecRegistry.is_immunized,
      LobSecRegistry.get_threat_level, InsurancePool.purchase_coverage in H.
    unfold_web3 H. rewrite Hkey in H. run_cases H; close_sent_by.
Qed.

Lemma agent_transactions_sent_by_key_witness :
  senders (snd (Agent.stake Scenario.agent Scenario.f_100
                            (Scenario.calm 0 (Ok tt)) []))
  = ["0xSigner"%string; "0xSigner"%string] /\
  sent_by (Scenario.calm 0 (Ok tt)) "0xSigner"%string []
          (snd (Agent.stake Scenario.agent Scenario.f_100
                            (Scenario.calm 0 (Ok tt)) [])).
Proof.
  split; [vm_compute; reflexivity |].
  destruct (agent_transactions_sent_by_key
              (Scenario.calm 0 (Ok tt)) Scenario.agent "0xSigner"%string []
              eq_refl) as (_ & Hstake & _).
  exact (Hstake Scenario.f_100).
Defined.

(** ** Amounts that are not numbers *)

(** [_to_usdc_units] returns an integer exactly on the finite floats: it
    raises ValueError on NaN and OverflowError on the infinities. *)
Theorem to_usdc_units_defined_iff_finite (x : PyFloat.float) :
  PyFloat.valid x = true ->
  (PyFloat.is_finite x = true <->
   exists z : Z, InsurancePool._to_usdc_units x = Ok z) /\
  (x = S754_nan ->
   InsurancePool._to_usdc_units x
   = Raise (ValueError "cannot convert NaN to integer")) /\
  (forall s, x = S754_infinity s ->
   InsurancePool._to_usdc_units x
   = Raise (OverflowError "cannot convert Infinity to integer")).
Proof.
  intros Hv. split; [| split].
  - split.
    + destruct x as [s | s | | s m e]; try discriminate; intros _.
      * exists 0. destruct s; vm_compute; reflexivity.
      * destruct (of_float_str_finite s m e Hv) as (c & e' & Hs & Hc & He).
        rewrite (to_usdc_units_of _ s c e' Hs Hc He). eexists. reflexivity.
    + intros [z Hz]. destruct x as [s | s | | s m e]; try reflexivity.
      * destruct s; vm_compute in Hz; discriminate Hz.
      * vm_compute in Hz. discriminate Hz.
  - intros ->. reflexivity.
  - intros s ->. destruct s; reflexivity.
Qed.

Lemma to_usdc_units_defined_iff_finite_witness :
  exists z : Z, InsurancePool._to_usdc_units Scenario.f_1_5 = Ok z.
Proof.
  destruct (to_usdc_units_defined_iff_finite Scenario.f_1_5 eq_refl)
    as [[H _] _].
  apply H. reflexivity.
Defined.

Lemma to_usdc_units_not_finite (x : PyFloat.float) :
  PyFloat.is_finite x = false ->
  exists e, InsurancePool._to_usdc_units x = Raise e.
Proof.
  destruct x as [s | s | | s m e]; try discriminate; intros _; eexists.
  - destruct s; reflexivity.
  - reflexivity.
Qed.

(** An amount that is NaN or infinite never reaches the endpoint: the
    premium calculation, the purchase, the staking flow and the quote all
    raise with the trace unchanged. *)
Theorem not_finite_amount_makes_no_request
        (env : Web3.Env) (tr : list Web3.rpc) (amount : PyFloat.float) :
  PyFloat.is_finite amount = false ->
  (forall self days risk,
     exists e, InsurancePool.calculate_premium self amount days risk env tr
               = (Raise e, tr)) /\
  (forall self a p days key risk,
     exists e, InsurancePool.purchase_coverage self a p amount days key risk
                                               env tr = (Raise e, tr)) /\
  (forall self key,
     exists e, InsurancePool.stake_for_insurance self amount key env tr
               = (Raise e, tr)) /\
  (forall self, exists e, Agent.stake self amount env tr = (Raise e, tr)) /\
  (forall self days,
     exists e, Agent.get_premium_quote self amount days env tr
               = (Raise e, tr)).
Proof.
  intros Hnf. destruct (to_usdc_units_not_finite amount Hnf) as [e He].
  repeat split; intros.
  - unfold InsurancePool.calculate_premium, Web3.bind, Web3.lift.
    rewrite He. eexists. reflexivity.
  - unfold InsurancePool.purchase_coverage, Web3.bind, Web3.lift, Web3.local_.
    destruct (Web3.to_checksum_address env a); [| eexists; reflexivity].
    destruct (Web3.to_checksum_address env p); [| eexists; reflexivity].
    rewrite He. eexists. reflexivity.
  - unfold InsurancePool.stake_for_insurance, Web3.bind, Web3.lift.
    rewrite He. eexists. reflexivity.
  - unfold Agent.stake.
    destruct (PyFloat.ltb amount (PyFloat.of_int 100));
      [unfold Web3.raise; eexists; reflexivity |].
    unfold InsurancePool.stake_for_insurance, Web3.bind, Web3.lift.
    rewrite He. eexists. reflexivity.
  - unfold Agent.get_premium_quote, InsurancePool.calculate_premium,
      Web3.bind, Web3.lift.
    rewrite He. eexists. reflexivity.
Qed.

Lemma not_finite_amount_makes_no_request_witness :
  Agent.stake Scenario.agent S754_nan (Scenario.calm 0 (Ok tt)) []
  = (Raise (ValueError "cannot convert NaN to integer"), []).
Proof.
  destruct (not_finite_amount_makes_no_request
              (Scenario.calm 0 (Ok tt)) [] S754_nan eq_refl)
    as (_ & _ & _ & H & _).
  destruct (H Scenario.agent) as [e He]. rewrite He.
  vm_compute in He. inversion He. reflexivity.
Defined.

(** ** Truncation and sign of the conversion to units *)

Lemma of_float_str_bounds (x : PyFloat.float) (s : bool) (c e : Z) :
  PyFloat.valid x = true ->
  PyDecimal.of_float_str x = PyDecimal.Finite s c e ->
  0 <= c <= 10 ^ 17 /\ -341 <= e <= 310.
Proof.
  intros Hv Hs. destruct x as [s0 | s0 | | s0 m e2]; try discriminate Hs.
  - inversion Hs; subst. change (10 ^ 17) with 100000000000000000. lia.
  - destruct (of_float_str_finite s0 m e2 Hv) as (c' & e' & Hs' & Hc & He).
    rewrite Hs' in Hs. inversion Hs; subst. split; assumption.
Qed.

(** The units are the amount shown by [str], scaled by a million and cut
    off towards zero: nothing is rounded up and the sign is kept. *)
Theorem to_usdc_units_truncates (x : PyFloat.float) (s : bool) (c e : Z) :
  PyFloat.valid x = true ->
  PyDecimal.of_float_str x = PyDecimal.Finite s c e ->
  exists z : Z,
    InsurancePool._to_usdc_units x = Ok z /\
    (if s then z <= 0 else 0 <= z) /\
    (inject_Z (Z.abs z) <= PyFloat.decimal_value c e * inject_Z 1000000)%Q /\
    (PyFloat.decimal_value c e * inject_Z 1000000 < inject_Z (Z.abs z + 1))%Q.
Proof.
  intros Hv Hs. destruct (of_float_str_bounds x s c e Hv Hs) as [Hc He].
  rewrite (to_usdc_units_of x s c e Hs Hc He). cbv zeta.
  set (n := if 0 <=? e then c * 1000000 * 10 ^ e
            else c * 1000000 / 10 ^ (- e)).
  assert (Hn : 0 <= n /\
               (inject_Z n
                <= PyFloat.decimal_value c e * inject_Z 1000000)%Q /\
               (PyFloat.decimal_value c e * inject_Z 1000000
                < inject_Z (n + 1))%Q).
  { subst n. unfold PyFloat.decimal_value, Qle, Qlt.
    destruct (0 <=? e) eqn:E.
    - apply Z.leb_le in E. pose proof (pow10_pos e E).
      cbn [Qnum Qden inject_Z Qmult]. nia.
    - apply Z.leb_gt in E.
      pose proof (pow10_pos (- e) ltac:(lia)) as Hp.
      cbn [Qnum Qden inject_Z Qmult].
      rewrite Pos.mul_1_r, Z2Pos.id by lia.
      pose proof (Z.div_mod (c * 1000000) (10 ^ (- e)) ltac:(lia)) as Hdm.
      pose proof (Z.mod_pos_bound (c * 1000000) (10 ^ (- e)) Hp) as Hm.
      assert (0 <= c * 1000000 / 10 ^ (- e)) by (apply Z.div_pos; lia).
      split; [assumption |]. split; nia. }
  destruct Hn as (Hn0 & Hle & Hlt).
  exists (if s then - n else n). split; [reflexivity |].
  destruct s.
  - rewrite Z.abs_opp, Z.abs_eq by lia. repeat split; try assumption. lia.
  - rewrite Z.abs_eq by lia. repeat split; assumption.
Qed.

Lemma to_usdc_units_truncates_witness :
  exists z : Z,
    InsurancePool._to_usdc_units Scenario.f_neg_1_5 = Ok z /\
    z <= 0 /\
    (inject_Z (Z.abs z) <= PyFloat.decimal_value 15 (-1) * inject_Z 1000000)%Q
    /\
    (PyFloat.decimal_value 15 (-1) * inject_Z 1000000
     < inject_Z (Z.abs z + 1))%Q.
Proof.
  apply (to_usdc_units_truncates Scenario.f_neg_1_5 true 15 (-1));
    vm_compute; reflexivity.
Defined.

(** The sign of a fraction only shows in the sign of its rounding. *)
Lemma round_Q_sign (s : bool) (q : Q) :
  PyFloat.round_Q s q
  = match PyFloat.round_Q false q with
    | S754_zero _ => S754_zero s
    | S754_infinity _ => S754_infinity s
    | S754_nan => S754_nan
    | S754_finite _ m e => S754_finite s m e
    end.
Proof.
  unfold PyFloat.round_Q.
  destruct (Qnum (Qred q)) as [| n | n]; try reflexivity.
  unfold PyFloat.of_frac, SFdiv. rewrite xorb_false_r. cbn [xorb].
  destruct (SFdiv_core_binary PyFloat.prec PyFloat.emax (Z.pos n) 0
              (Z.pos (Qden (Qred q))) 0) as [[mz ez] lz].
  unfold binary_round_aux.
  destruct (shr_fexp PyFloat.prec PyFloat.emax mz ez lz) as [mrs' e'].
  destruct (shr_fexp PyFloat.prec PyFloat.emax
              (round_nearest_even (shr_m mrs') (loc_of_shr_record mrs')) e'
              loc_Exact) as [mrs'' e''].
  destruct (shr_m mrs'') as [| mm | mm]; try reflexivity.
  destruct (e'' <=? PyFloat.emax - PyFloat.prec); reflexivity.
Qed.

Lemma reads_back_sign (s : bool) (m : positive) (e c q : Z) :
  PyFloat.reads_back (S754_finite s m e) s c q
  = PyFloat.reads_back (S754_finite false m e) false c q.
Proof.
  unfold PyFloat.reads_back. rewrite (round_Q_sign s).
  destruct (PyFloat.round_Q false (PyFloat.decimal_value c q))
    as [s2 | s2 | | s2 m2 e2] eqn:E; try reflexivity.
  assert (Hs2 : s2 = false).
  { revert E. rewrite round_Q_sign.
    destruct (PyFloat.round_Q false (PyFloat.decimal_value c q));
      try discriminate.
    intros H. now inversion H. }
  subst s2. now rewrite eqb_reflx.
Qed.

Lemma shortest_sign (s : bool) (m : positive) (e : Z) :
  PyFloat.shortest s m e = PyFloat.shortest false m e.
Proof.
  unfold PyFloat.shortest. cbv zeta.
  set (a := PyFloat.scaled m e). set (p := PyFloat.ilog10 a).
  assert (H : forall fuel nd,
             PyFloat.shortest_from fuel (S754_finite s m e) s a p nd
             = PyFloat.shortest_from fuel (S754_finite false m e) false a p nd).
  { induction fuel as [| fuel IH]; intros nd; cbn [PyFloat.shortest_from];
      [reflexivity |].
    assert (Hc : PyFloat.candidate (S754_finite s m e) s a p nd
                 = PyFloat.candidate (S754_finite false m e) false a p nd).
    { unfold PyFloat.candidate.
      destruct (Z.div_eucl a (PyFloat.weight (p - nd + 1 + 350))) as [lo r].
      cbv zeta. now rewrite !(reads_back_sign s). }
    rewrite Hc.
    destruct (PyFloat.candidate (S754_finite false m e) false a p nd);
      [reflexivity | apply IH]. }
  now rewrite H.
Qed.

(** Negating a finite amount negates its units: the conversion treats
    negative amounts as mirrored positive ones. *)
Theorem to_usdc_units_odd (x : PyFloat.float) :
  PyFloat.valid x = true ->
  PyFloat.is_finite x = true ->
  exists z : Z,
    InsurancePool._to_usdc_units x = Ok z /\
    InsurancePool._to_usdc_units (SFopp x) = Ok (- z).
Proof.
  intros Hv Hf. destruct x as [s | s | | s m e2]; try discriminate Hf.
  - exists 0. destruct s; split; vm_compute; reflexivity.
  - destruct (of_float_str_finite false m e2 Hv) as (c & e & Hs & Hc & He).
    assert (Hany : forall s', PyDecimal.of_float_str (S754_finite s' m e2)
                              = PyDecimal.Finite s' c e).
    { intros s'. unfold PyDecimal.of_float_str in *.
      rewrite shortest_sign.
      destruct (PyFloat.shortest false m e2) as [c0 q0].
      repeat match type of Hs with
             | context [if ?b then _ else _] => destruct b
             end;
        inversion Hs; reflexivity. }
    cbn [SFopp].
    rewrite (to_usdc_units_of _ s c e (Hany s) Hc He).
    rewrite (to_usdc_units_of _ (negb s) c e (Hany (negb s)) Hc He).
    cbv zeta. eexists. split; [reflexivity |].
    destruct s; cbn [negb]; f_equal; lia.
Qed.

Lemma to_usdc_units_odd_witness :
  InsurancePool._to_usdc_units Scenario.f_1_5 = Ok 1500000 /\
  InsurancePool._to_usdc_units Scenario.f_neg_1_5 = Ok (- 1500000).
Proof.
  destruct (to_usdc_units_odd Scenario.f_1_5 eq_refl eq_refl)
    as (z & Hz & Hopp).
  assert (Hval : InsurancePool._to_usdc_units Scenario.f_1_5 = Ok 1500000)
    by (vm_compute; reflexivity).
  rewrite Hval in Hz. inversion Hz; subst z.
  split; [exact Hval | exact Hopp].
Defined.

(** ** Call sites and interface tables *)

(** Every read the clients make names exactly one function of the ABI of
    the contract object it goes through, passes arguments that function
    accepts, uses results it returns, and is a [view] or [pure] function;
    every write names exactly one [nonpayable] function that accepts its
    arguments. *)
Theorem call_sites_resolve :
  (forall f : Web3.view,
     let '(abi, name, args, results) := view_site f in
     resolves abi name args results ["view"%string; "pure"%string] = true) /\
  (forall w : Web3.write,
     let '(abi, name, args) := write_site w in
     match lookup_function abi name with
     | [e] => all_fit args (abi_inputs e)
              && String.eqb (abi_stateMutability e) "nonpayable"
     | _ => false
     end = true).
Proof.
  split.
  - intros f. destruct f; vm_compute; reflexivity.
  - intros w. destruct w; vm_compute; reflexivity.
Qed.

(** ** Building an agent *)

(** [Agent(...)] succeeds exactly when the endpoint is connected and every
    address passes the checksum; the agent then talks to the registry and
    pool given as overrides (an absent or empty override meaning the
    deployed address) and always to the deployed staking and token
    contracts. A bad agent address is reported before the connection is
    checked, and a failed connection before any override is looked at. *)
Theorem agent_init_wiring
        (env : Web3.Env) (connected : bool)
        (address_ private_key rpc_url : string)
        (pool_address registry_address : option string) :
  (forall agent : Agent.t,
     Agent.__init__ env connected address_ private_key rpc_url pool_address
                    registry_address = inl agent <->
     connected = true /\
     Web3.to_checksum_address env address_ = Ok (Agent.address agent) /\
     Agent._private_key agent = private_key /\
     Web3.to_checksum_address env (or_default registry_address LOBSEC_REGISTRY)
     = Ok (Agent.registry agent) /\
     Web3.to_checksum_address env
       (or_default pool_address AGENT_INSURANCE_POOL)
     = Ok (InsurancePool.pool_address (Agent.insurance agent)) /\
     Web3.to_checksum_address env AGENT_STAKING
     = Ok (InsurancePool.staking_address (Agent.insurance agent)) /\
     Web3.to_checksum_address env USDC
     = Ok (InsurancePool.usdc (Agent.insurance agent))) /\
  (forall e,
     Web3.to_checksum_address env address_ = Raise e ->
     Agent.__init__ env connected address_ private_key rpc_url pool_address
                    registry_address = inr (Agent.Propagated e)) /\
  (forall a,
     Web3.to_checksum_address env address_ = Ok a -> connected = false ->
     Agent.__init__ env connected address_ private_key rpc_url pool_address
                    registry_address
     = inr (Agent.ConnectionError ("Failed to connect to " ++ rpc_url))).
Proof.
  split; [| split].
  - intros agent. unfold Agent.__init__, LobSecRegistry.__init__,
      InsurancePool.__init__, rbind.
    change (or_default None AGENT_STAKING) with AGENT_STAKING.
    split.
    + intros H.
      destruct (Web3.to_checksum_address env address_); [| discriminate H].
      destruct connected; cbn [negb] in H; [| discriminate H].
      destruct (Web3.to_checksum_address env
                  (or_default registry_address LOBSEC_REGISTRY));
        [| discriminate H].
      destruct (Web3.to_checksum_address env
                  (or_default pool_address AGENT_INSURANCE_POOL));
        [| discriminate H].
      destruct (Web3.to_checksum_address env AGENT_STAKING);
        [| discriminate H].
      destruct (Web3.to_checksum_address env USDC); [| discriminate H].
      inversion H; subst agent. cbn. repeat split; reflexivity.
    + intros (Hconn & Ha & Hk & Hr & Hp & Hs & Hu).
      rewrite Ha, Hconn, Hr, Hp, Hs, Hu. cbn [negb].
      destruct agent as [a k r [p s u]]. cbn in *. now subst.
  - intros e He. unfold Agent.__init__. now rewrite He.
  - intros a Ha Hc. unfold Agent.__init__. now rewrite Ha, Hc.
Qed.

Lemma agent_init_wiring_witness :
  exists agent : Agent.t,
    Agent.__init__ (Scenario.calm 0 (Ok tt)) true Scenario.addr "key"
                   "https://mainnet.base.org" (Some ""%string) None
    = inl agent /\
    InsurancePool.pool_address (Agent.insurance agent) = AGENT_INSURANCE_POOL
    /\
    Agent.__init__ (Scenario.calm 0 (Ok tt)) false Scenario.addr "key"
                   "https://mainnet.base.org" (Some ""%string) None
    = inr (Agent.ConnectionError
             "Failed to connect to https://mainnet.base.org").
Proof.
  exists Scenario.agent.
  destruct (agent_init_wiring (Scenario.calm 0 (Ok tt)) true Scenario.addr
              "key" "https://mainnet.base.org" (Some ""%string) None)
    as (Hiff & _ & _).
  destruct (agent_init_wiring (Scenario.calm 0 (Ok tt)) false Scenario.addr
              "key" "https://mainnet.base.org" (Some ""%string) None)
    as (_ & _ & Hdown).
  split; [| split].
  - apply Hiff. repeat split; reflexivity.
  - reflexivity.
  - exact (Hdown Scenario.addr eq_refl eq_refl).
Defined.
